(** * SCAN-AI: the medical-report pipeline of [model.py] and [app.py]

    A shallow embedding of the request-processing pipeline
    (upload validation, temporary storage, OCR extraction, LLM prompting,
    highlights parsing, response assembly, cleanup) together with the
    properties its specification states about it.

    Python [str] values are sequences of Unicode code points, and the code
    under study strips and splits on code points outside ASCII, so a string
    is modelled as a list of code points ([N]); ASCII literals are written
    with [py "..."]. *)

From Stdlib Require Import String Ascii NArith ZArith QArith List Lia Bool.
From Stdlib Require Import DecimalString.
From stdpp Require Import base option list gmap.

Local Open Scope N_scope.

(** ** Python strings *)

Abbreviation char := N (only parsing).
Abbreviation str := (list N) (only parsing).

(** An ASCII literal as a Python string. *)
Definition py (s : string) : str :=
  List.map N_of_ascii (list_ascii_of_string s).
Arguments py : simpl never.

Definition TAB : char := 9.
Definition LF : char := 10.
Definition CR : char := 13.
Definition SPACE : char := 32.
Definition COMMA : char := 44.
Definition HYPHEN : char := 45.

(** Membership of a code point in a set of code points given as a string
    (what [str.strip(chars)] tests for each end character). *)
Definition char_in (chars : str) (c : char) : bool :=
  existsb (N.eqb c) chars.

(** [str.isspace] on one code point: the code points CPython's
    [_PyUnicode_IsWhitespace] accepts. *)
Definition whitespace_chars : str :=
  [ 0x09; 0x0A; 0x0B; 0x0C; 0x0D; 0x1C; 0x1D; 0x1E; 0x1F; 0x20; 0x85; 0xA0;
    0x1680; 0x2000; 0x2001; 0x2002; 0x2003; 0x2004; 0x2005; 0x2006; 0x2007;
    0x2008; 0x2009; 0x200A; 0x2028; 0x2029; 0x202F; 0x205F; 0x3000 ].

Definition is_whitespace (c : char) : bool := char_in whitespace_chars c.

(** The line boundaries of [str.splitlines] (CPython's
    [_PyUnicode_IsLinebreak]). *)
Definition linebreak_chars : str :=
  [ 0x0A; 0x0B; 0x0C; 0x0D; 0x1C; 0x1D; 0x1E; 0x85; 0x2028; 0x2029 ].

Definition is_linebreak (c : char) : bool := char_in linebreak_chars c.

(** [s.lstrip], [s.rstrip] and [s.strip] for an arbitrary class of
    characters [p]. *)
Fixpoint lstrip_with (p : char -> bool) (s : str) : str :=
  match s with
  | [] => []
  | c :: s' => if p c then lstrip_with p s' else s
  end.

Definition rstrip_with (p : char -> bool) (s : str) : str :=
  rev (lstrip_with p (rev s)).

Definition strip_with (p : char -> bool) (s : str) : str :=
  rstrip_with p (lstrip_with p s).

(** [s.strip()] : surrounding whitespace removed. *)
Definition strip (s : str) : str := strip_with is_whitespace s.

(** [s.strip(chars)] : surrounding characters of [chars] removed. *)
Definition strip_chars (chars : str) (s : str) : str :=
  strip_with (char_in chars) s.

(** [s.split(sep)] for a one-character separator: every occurrence
    separates, empty pieces are kept, and the empty string gives [['']]. *)
Fixpoint split (sep : char) (s : str) : list str :=
  match s with
  | [] => [[]]
  | c :: s' =>
      if N.eqb c sep then [] :: split sep s'
      else match split sep s' with
           | [] => [[c]]
           | piece :: pieces => (c :: piece) :: pieces
           end
  end.

(** [s.splitlines()] : the lines of [s] without their line boundary; a
    carriage return followed by a line feed is one boundary; a boundary at
    the very end opens no further line and the empty string has no lines. *)
Fixpoint splitlines (s : str) : list str :=
  match s with
  | [] => []
  | c :: s' =>
      if is_linebreak c then
        [] :: (if N.eqb c CR
               then match s' with
                    | c' :: s'' => if N.eqb c' LF then splitlines s''
                                   else splitlines s'
                    | [] => splitlines s'
                    end
               else splitlines s')
      else match splitlines s' with
           | [] => [[c]]
           | line :: lines => (c :: line) :: lines
           end
  end.

(** [sep.join(items)]. *)
Fixpoint join (sep : str) (items : list str) : str :=
  match items with
  | [] => []
  | [x] => x
  | x :: rest => x ++ sep ++ join sep rest
  end.

(** [c in s] for a one-character needle. *)
Definition contains (c : char) (s : str) : bool := existsb (N.eqb c) s.

(** Truth value of a string: non-empty. *)
Definition nonempty (s : str) : bool :=
  match s with [] => false | _ => true end.

(** ** Python values seen through duck typing

    The streamed fragments are inspected with attribute access, [.get],
    subscripts and truth tests only, so a fragment is a value of a small
    universe of Python values. Each operation returns [None] where Python
    raises (AttributeError, KeyError, IndexError or TypeError); every call
    site catches all of them alike. *)

#[warnings="-register-all"] Inductive pyval : Type :=
  | PNone
  | PBool (b : bool)
  | PInt (z : Z)
  | PStr (s : str)
  | PList (items : list pyval)
  | PDict (entries : gmap str pyval)
  | PObj (attrs : gmap str pyval).

(** Truth value of a Python value. *)
Definition truthy (v : pyval) : bool :=
  match v with
  | PNone => false
  | PBool b => b
  | PInt z => negb (Z.eqb z 0)
  | PStr s => nonempty s
  | PList items => match items with [] => false | _ => true end
  | PDict entries => negb (bool_decide (size entries = 0%nat))
  | PObj _ => true
  end.

(** [v.name]: only objects carry the data attributes looked up here; a
    mapping, string, list, number or [None] has none of them. *)
Definition getattr (v : pyval) (name : str) : option pyval :=
  match v with
  | PObj attrs => attrs !! name
  | _ => None
  end.

(** [getattr(v, name, None)]. *)
Definition getattr_or_None (v : pyval) (name : str) : pyval :=
  default PNone (getattr v name).

(** [v.get(key)]: a mapping answers, with [None] for a missing key; any
    other value has no [get]. *)
Definition dict_get (v : pyval) (key : str) : option pyval :=
  match v with
  | PDict entries => Some (default PNone (entries !! key))
  | _ => None
  end.

(** [v[key]] for a string key. *)
Definition getitem (v : pyval) (key : str) : option pyval :=
  match v with
  | PDict entries => entries !! key
  | _ => None
  end.

(** [v[0]]: first element of a list, first character of a string; the
    mappings here have string keys, so [0] is a missing key. *)
Definition getitem0 (v : pyval) : option pyval :=
  match v with
  | PList items => items !! 0%nat
  | PStr (c :: _) => Some (PStr [c])
  | _ => None
  end.

(** [text += v]: only a string can be appended to a string. *)
Definition iadd (text : str) (v : pyval) : option str :=
  match v with
  | PStr s => Some (text ++ s)
  | _ => None
  end.

(** ** Exceptions, state and external collaborators *)

Inductive exn : Type :=
  | HTTPException (status_code : Z) (detail : str)
  | ValueError (msg : str)
  | Exception (msg : str).

(** [str(e)]. *)
Definition exn_str (e : exn) : str :=
  match e with
  | HTTPException status_code detail =>
      py (DecimalString.NilZero.string_of_int (Z.to_int status_code))
        ++ py ": " ++ detail
  | ValueError msg => msg
  | Exception msg => msg
  end.

Inductive outcome (A : Type) : Type :=
  | Return (a : A)
  | Raise (e : exn).
Arguments Return {A} a.
Arguments Raise {A} e.

(** A computation over a state [S] that returns or raises; the state
    survives an exception, as Python's side effects do. *)
Definition M (S A : Type) : Type := S -> outcome A * S.

Definition ret {S A} (a : A) : M S A := fun s => (Return a, s).

Definition raise {S A} (e : exn) : M S A := fun s => (Raise e, s).

Definition bind {S A B} (c : M S A) (k : A -> M S B) : M S B :=
  fun s =>
    match c s with
    | (Return a, s') => k a s'
    | (Raise e, s') => (Raise e, s')
    end.

(** [try: c except Exception as e: handler e]. *)
Definition try_except {S A} (c : M S A) (handler : exn -> M S A) : M S A :=
  fun s =>
    match c s with
    | (Return a, s') => (Return a, s')
    | (Raise e, s') => handler e s'
    end.

(** [try: c finally: cleanup]; an exception of [cleanup] would replace
    the outcome of [c]. *)
Definition try_finally {S A} (c : M S A) (cleanup : M S unit) : M S A :=
  fun s =>
    match c s with
    | (o, s') =>
        match cleanup s' with
        | (Return _, s'') => (o, s'')
        | (Raise e, s'') => (Raise e, s'')
        end
    end.

Definition get {S} : M S S := fun s => (Return s, s).
Definition modify {S} (f : S -> S) : M S unit := fun s => (Return tt, f s).

(** A result of a collaborator that may have raised. *)
Definition of_result {S A} (r : exn + A) : M S A :=
  match r with
  | inl e => raise e
  | inr a => ret a
  end.

Declare Scope py_scope.
Delimit Scope py_scope with py.
Notation "'do' x <- c ; k" := (bind c (fun x => k))
  (at level 10, x name, c at level 100, k at level 200) : py_scope.
Notation "'run' c ; k" := (bind c (fun _ => k))
  (at level 10, c at level 100, k at level 200) : py_scope.
Local Open Scope py_scope.

(** One text region of the OCR engine: [[box, (text, confidence)]]. *)
Record detection : Type := {
  box : list (list Q);
  text : str;
  confidence : Q
}.

(** What [PaddleOCR.ocr] returns: [None] or a list of pages, each [None]
    or the list of the regions detected on it. *)
Definition ocr_result : Type := option (list (option (list detection))).

Record message : Type := { role : str; content : str }.

Record chat_request : Type := {
  model : str;
  messages : list message;
  temperature : Q;
  max_completion_tokens : Z;
  top_p : Z;
  stream : bool
}.

(** A streamed completion: the fragments delivered, and the exception
    that ended the iteration if one did. *)
Record completion : Type := {
  chunks : list pyval;
  stream_error : option exn
}.

(** Calls to the collaborators, oldest first. *)
Inductive event : Type :=
  | TempFileCreated (name : str)
  | OcrEngineLoaded
  | GroqClientCreated
  | ImageVerified (path : str)
  | OcrInvoked (path : str)
  | ChatCompletionRequested (req : chat_request)
  | UnlinkCalled (path : str).

Record MedicalReportProcessor : Type := { groq_client : str }.

Record world : Type := {
  environ : gmap str str;
  files : gmap str (list Byte.byte);
  processor : option MedicalReportProcessor;
  calls : list event
}.

(** An exception raised by a library the handler calls outside every
    wrapper of [model.py] ([tempfile], the constructor of the OCR engine):
    a [ValueError] or another exception, never the web framework's
    [HTTPException], which these libraries do not know. *)
Inductive lib_exn : Type :=
  | LibValueError (msg : str)
  | LibException (msg : str).

Definition exn_of_lib (e : lib_exn) : exn :=
  match e with
  | LibValueError msg => ValueError msg
  | LibException msg => Exception msg
  end.

(** The behaviour of the libraries and services the repository calls.
    Reading the upload and writing and closing the temporary file, once
    it is created, are taken to succeed. *)
Record externals : Type := {
  splitext_ext : str -> str;
  tempfile_error : gmap str (list Byte.byte) -> str -> option lib_exn;
  tempfile_name : gmap str (list Byte.byte) -> str -> str;
  paddle_init : option lib_exn;
  missing_file : str -> exn;
  groq_client_init : str -> option exn;
  image_verify : list Byte.byte -> option exn;
  paddle_ocr : list Byte.byte -> exn + ocr_result;
  chat_completions_create : str -> list event -> chat_request -> exn + completion;
  os_unlink : str -> option exn;
  format_exc : exn -> str
}.

Definition log (ev : event) : M world unit :=
  modify (fun w => {| environ := environ w; files := files w;
                      processor := processor w; calls := calls w ++ [ev] |}).

Definition set_processor (p : MedicalReportProcessor) : M world unit :=
  modify (fun w => {| environ := environ w; files := files w;
                      processor := Some p; calls := calls w |}).

Definition set_files (fs : gmap str (list Byte.byte)) : M world unit :=
  modify (fun w => {| environ := environ w; files := fs;
                      processor := processor w; calls := calls w |}).

(** ** model.py *)

(** [MedicalReportProcessor.__init__]. *)
Definition MedicalReportProcessor_init (X : externals)
  : M world MedicalReportProcessor :=
  run log OcrEngineLoaded;
  run match paddle_init X with
      | Some e => raise (exn_of_lib e)
      | None => ret tt
      end;
  do w <- get;
  let groq_api_key := environ w !! py "GROQ_API_KEY" in
  if negb (nonempty (default [] groq_api_key)) then
    raise (ValueError (py "GROQ_API_KEY not found in environment variables. Please set it in your .env file."))
  else
    match groq_client_init X (default [] groq_api_key) with
    | Some e =>
        raise (ValueError (py "Failed to initialize Groq client: " ++ exn_str e))
    | None =>
        run log GroqClientCreated;
        ret {| groq_client := default [] groq_api_key |}
    end.

(** [Image.open(image_path).verify()]. *)
Definition Image_open_verify (X : externals) (image_path : str) : M world unit :=
  run log (ImageVerified image_path);
  do w <- get;
  match files w !! image_path with
  | None => raise (missing_file X image_path)
  | Some contents =>
      match image_verify X contents with
      | Some e => raise e
      | None => ret tt
      end
  end.

(** [self.ocr.ocr(image_path, cls=False)]. *)
Definition ocr_ocr (X : externals) (image_path : str) : M world ocr_result :=
  run log (OcrInvoked image_path);
  do w <- get;
  match files w !! image_path with
  | None => raise (missing_file X image_path)
  | Some contents => of_result (paddle_ocr X contents)
  end.

(** [not result or not result[0]]. *)
Definition no_regions (result : ocr_result) : bool :=
  match result with
  | None => true
  | Some [] => true
  | Some (None :: _) => true
  | Some (Some [] :: _) => true
  | Some (Some (_ :: _) :: _) => false
  end.

(** [result[0]], where it is read. *)
Definition result_0 (result : ocr_result) : list detection :=
  match result with
  | Some (Some regions :: _) => regions
  | _ => []
  end.

(** [MedicalReportProcessor.extract_text_from_image]. *)
Definition extract_text_from_image (X : externals) (image_path : str)
  : M world str :=
  try_except
    (run Image_open_verify X image_path;
     do result <- ocr_ocr X image_path;
     if no_regions result then ret []
     else
       let extracted_lines :=
         fold_left (fun lines line => lines ++ [text line]) (result_0 result) [] in
       ret (join [LF] extracted_lines))
    (fun e => raise (Exception (py "OCR extraction failed: " ++ exn_str e))).

(** The three nested attempts of the loop body of [_get_groq_response] on
    one fragment; [None] where the attempt raises. *)
Definition append_from_attributes (response_text : str) (chunk : pyval)
  : option str :=
  choices ← getattr chunk (py "choices");
  choice ← getitem0 choices;
  delta ← getattr choice (py "delta");
  if truthy (getattr_or_None delta (py "content"))
  then content ← getattr delta (py "content"); iadd response_text content
  else Some response_text.

Definition append_from_mapping (response_text : str) (chunk : pyval)
  : option str :=
  choices ← dict_get chunk (py "choices");
  if negb (truthy choices) then Some response_text else
  delta ← (cs ← getitem chunk (py "choices"); c ← getitem0 cs;
           dict_get c (py "delta"));
  if negb (truthy delta) then Some response_text else
  content ← (cs ← getitem chunk (py "choices"); c ← getitem0 cs;
             d ← getitem c (py "delta"); dict_get d (py "content"));
  if negb (truthy content) then Some response_text else
  content ← (cs ← getitem chunk (py "choices"); c ← getitem0 cs;
             d ← getitem c (py "delta"); getitem d (py "content"));
  iadd response_text content.

Definition append_from_text (response_text : str) (chunk : pyval)
  : option str :=
  t ← dict_get chunk (py "text");
  if truthy t
  then t ← dict_get chunk (py "text"); iadd response_text t
  else Some response_text.

(** One iteration of [for chunk in completion]: the new value of
    [response_text]. *)
Definition consume_chunk (response_text : str) (chunk : pyval) : str :=
  match append_from_attributes response_text chunk with
  | Some response_text' => response_text'
  | None =>
      match append_from_mapping response_text chunk with
      | Some response_text' => response_text'
      | None =>
          match append_from_text response_text chunk with
          | Some response_text' => response_text'
          | None => response_text
          end
      end
  end.

Definition GROQ_MODEL : str := py "meta-llama/llama-4-scout-17b-16e-instruct".

(** [self.groq_client.chat.completions.create(...)]. *)
Definition chat_create (X : externals) (self : MedicalReportProcessor)
  (req : chat_request) : M world completion :=
  do w <- get;
  run log (ChatCompletionRequested req);
  of_result (chat_completions_create X (groq_client self) (calls w) req).

(** [MedicalReportProcessor._get_groq_response]. *)
Definition _get_groq_response (X : externals) (self : MedicalReportProcessor)
  (messages : list message) (temperature : Q) (max_tokens : Z) : M world str :=
  try_except
    (do completion <- chat_create X self
         {| model := GROQ_MODEL; messages := messages;
            temperature := temperature; max_completion_tokens := max_tokens;
            top_p := 1; stream := true |};
     let response_text := fold_left consume_chunk (chunks completion) [] in
     match stream_error completion with
     | Some e => raise e
     | None => ret (strip response_text)
     end)
    (fun e => raise (Exception (py "Groq API call failed: " ++ exn_str e
                                  ++ [LF] ++ format_exc X e))).

(** The characters of the literal passed to [h.strip(...)] in the newline
    branch, as the source file spells it: hyphen, U+00E2, U+20AC, U+00A2,
    space, tab. *)
Definition STRIP_CHARS : str := [0x2D; 0xE2; 0x20AC; 0xA2; 0x20; 0x09].

(** The list comprehensions of [analyze_with_llm] (both branches). *)
Definition split_highlights (highlights_text : str) : list str :=
  if nonempty highlights_text then
    if contains LF highlights_text then
      List.map (strip_chars STRIP_CHARS)
        (List.filter (fun h => nonempty (strip h)) (splitlines highlights_text))
    else
      List.map strip
        (List.filter (fun h => nonempty (strip h)) (split COMMA highlights_text))
  else [].

(** [if not highlights: highlights = [highlights_text] if highlights_text else []]. *)
Definition highlights_or_raw (highlights : list str) (highlights_text : str)
  : list str :=
  match highlights with
  | [] => if nonempty highlights_text then [highlights_text] else []
  | _ => highlights
  end.

(** The highlights of [analyze_with_llm] from the text of the second
    response: comprehension, fallback, [highlights[:5]]. *)
Definition parse_highlights (highlights_text : str) : list str :=
  firstn 5 (highlights_or_raw (split_highlights highlights_text) highlights_text).

Definition FALLBACK_EXPLANATION : str := py "Unable to generate explanation.".

(** [explanation if explanation else "Unable to generate explanation."]. *)
Definition explanation_or_fallback (explanation : str) : str :=
  if nonempty explanation then explanation else FALLBACK_EXPLANATION.

Record analysis : Type := { explanation : str; highlights : list str }.

Definition system_msg : message :=
  {| role := py "system";
     content := py "You are a helpful medical assistant. Provide clear, non-alarming explanations for medical report contents and list key findings." |}.

Definition explanation_prompt (extracted_text : str) : str :=
  py "Please read the following extracted medical report text and provide a plain-language explanation suitable for a patient. "
  ++ py "Be concise and avoid medical jargon where possible." ++ [LF; LF]
  ++ py "Report Text:" ++ [LF] ++ extracted_text.

Definition highlights_prompt (extracted_text : str) : str :=
  py "Please list up to 5 key findings or points from the report. Return each item on a new line."
  ++ [LF; LF] ++ py "Report Text:" ++ [LF] ++ extracted_text.

(** [MedicalReportProcessor.analyze_with_llm]. *)
Definition analyze_with_llm (X : externals) (self : MedicalReportProcessor)
  (extracted_text : str) : M world analysis :=
  try_except
    (let explanation_messages :=
       [system_msg; {| role := py "user"; content := explanation_prompt extracted_text |}] in
     do explanation <- _get_groq_response X self explanation_messages (3 # 10) 512;
     let highlights_messages :=
       [system_msg; {| role := py "user"; content := highlights_prompt extracted_text |}] in
     do highlights_text <- _get_groq_response X self highlights_messages (3 # 10) 256;
     ret {| explanation := explanation_or_fallback explanation;
            highlights := parse_highlights highlights_text |})
    (fun e => raise (Exception (py "LLM analysis (Groq) failed: " ++ exn_str e))).

Record report : Type := {
  raw_text : str;
  report_explanation : str;
  report_highlights : list str
}.

Definition NO_TEXT_EXPLANATION : str :=
  py "No text could be extracted from the image.".

(** [MedicalReportProcessor.process_medical_report]. *)
Definition process_medical_report (X : externals)
  (self : MedicalReportProcessor) (image_path : str) : M world report :=
  do raw_text <- extract_text_from_image X image_path;
  if negb (nonempty (strip raw_text)) then
    ret {| raw_text := []; report_explanation := NO_TEXT_EXPLANATION;
           report_highlights := [] |}
  else
    do analysis <- analyze_with_llm X self raw_text;
    ret {| raw_text := raw_text; report_explanation := explanation analysis;
           report_highlights := highlights analysis |}.

(** ** app.py *)

Record UploadFile : Type := {
  filename : str;
  content_type : option str;
  file_contents : list Byte.byte
}.

Record JSONResponse : Type := {
  success : bool;
  json_raw_text : str;
  json_explanation : str;
  json_highlights : list str
}.

Definition allowed_types : list str :=
  [py "image/jpeg"; py "image/jpg"; py "image/png"; py "image/bmp";
   py "image/tiff"].

(** [file.content_type not in allowed_types]. *)
Definition type_not_allowed (file : UploadFile) : bool :=
  match content_type file with
  | Some t => negb (bool_decide (t ∈ allowed_types))
  | None => true
  end.

(** [len(contents) > 10 * 1024 * 1024]. *)
Definition too_large (contents : list Byte.byte) : bool :=
  (10 * 1024 * 1024 <? Z.of_nat (length contents))%Z.

(** [tempfile.NamedTemporaryFile(delete=False, suffix=suffix)]: it
    raises (an over-long suffix, a directory that cannot be written) and
    no file exists, or the file exists, empty, from here on and the value
    is its name. *)
Definition NamedTemporaryFile (X : externals) (suffix : str) : M world str :=
  do w <- get;
  match tempfile_error X (files w) suffix with
  | Some e => raise (exn_of_lib e)
  | None =>
      let name := tempfile_name X (files w) suffix in
      run log (TempFileCreated name);
      run set_files (<[name := []]> (files w));
      ret name
  end.

(** [temp_file.write(contents); temp_file.close()]. *)
Definition temp_file_write (name : str) (contents : list Byte.byte)
  : M world unit :=
  do w <- get;
  set_files (<[name := contents]> (files w)).

(** [os.path.exists(name)]. *)
Definition os_path_exists (w : world) (name : str) : bool :=
  bool_decide (is_Some (files w !! name)).

(** [os.unlink(name)]. *)
Definition unlink (X : externals) (name : str) : M world unit :=
  run log (UnlinkCalled name);
  match os_unlink X name with
  | Some e => raise e
  | None => do w <- get; set_files (delete name (files w))
  end.

(** The lazy initialisation of the global [processor]. *)
Definition ensure_processor (X : externals) : M world MedicalReportProcessor :=
  do w <- get;
  match processor w with
  | Some p => ret p
  | None =>
      try_except
        (do p <- MedicalReportProcessor_init X;
         run set_processor p;
         ret p)
        (fun e =>
           match e with
           | ValueError _ => raise (HTTPException 500 (exn_str e))
           | _ => raise e
           end)
  end.

(** The handler's local variable [temp_file] (the name of the file, once
    it is bound) lives next to the world while the handler runs. *)
Definition in_world {L A} (c : M world A) : M (world * L) A :=
  fun s =>
    match c (fst s) with
    | (o, w') => (o, (w', snd s))
    end.

Definition set_temp_file (name : str) : M (world * option str) unit :=
  modify (fun s => (fst s, Some name)).

Definition with_locals {L A} (l : L) (c : M (world * L) A) : M world A :=
  fun w =>
    match c (w, l) with
    | (o, s') => (o, fst s')
    end.

(** The [finally] block of [analyze_report]. *)
Definition cleanup (X : externals) : M (world * option str) unit :=
  do s <- get;
  match snd s with
  | Some name =>
      if os_path_exists (fst s) name
      then in_world (try_except (unlink X name) (fun _ => ret tt))
      else ret tt
  | None => ret tt
  end.

(** [analyze_report], the handler of [POST /api/analyze]. An escaping
    [HTTPException] is the error response of that status. *)
Definition analyze_report (X : externals) (file : UploadFile)
  : M world JSONResponse :=
  if type_not_allowed file then
    raise (HTTPException 400
             (py "Invalid file type. Allowed types: "
                ++ join (py ", ") allowed_types))
  else
    with_locals None
      (try_finally
         (try_except
            (let contents := file_contents file in
             if too_large contents then
               raise (HTTPException 400 (py "File too large. Maximum size is 10MB"))
             else
               let ext := splitext_ext X (filename file) in
               let suffix := if nonempty ext then ext else py ".jpg" in
               do name <- in_world (NamedTemporaryFile X suffix);
               run set_temp_file name;
               run in_world (temp_file_write name contents);
               do processor <- in_world (ensure_processor X);
               do result <- in_world (process_medical_report X processor name);
               ret {| success := true;
                      json_raw_text := raw_text result;
                      json_explanation := report_explanation result;
                      json_highlights := report_highlights result |})
            (fun e =>
               match e with
               | HTTPException _ _ => raise e
               | _ => raise (HTTPException 500
                               (py "Failed to process medical report: "
                                  ++ exn_str e))
               end))
         (cleanup X)).

(** ** Notions the properties are stated with *)

(** The decorative characters as the specification lists them: hyphen,
    bullet glyph (U+2022), middle dot (U+00B7), tab, space. *)
Definition SPEC_DECORATIVE_CHARS : str := [HYPHEN; 0x2022; 0xB7; TAB; SPACE].

(** [respects R c]: every run of [c], returning or raising, takes a world
    to one related to it by [R]. *)
Definition respects {A} (R : world -> world -> Prop) (c : M world A) : Prop :=
  forall w, R w (snd (c w)).

(** The files are the same. *)
Definition same_files (w w' : world) : Prop := files w' = files w.

(** The calls made are calls that satisfy [P], after those made before. *)
Definition more_calls (P : event -> Prop) (w w' : world) : Prop :=
  exists evs, calls w' = calls w ++ evs /\ Forall P evs.

(** The text a fragment contributes to the assembled response. *)
Definition fragment_text (chunk : pyval) : str := consume_chunk [] chunk.

(** The chat-completion requests among the calls made. *)
Definition chat_requests (w : world) : list chat_request :=
  omap (fun ev => match ev with
                  | ChatCompletionRequested req => Some req
                  | _ => None
                  end) (calls w).

Definition is_chat_request (ev : event) : Prop :=
  match ev with ChatCompletionRequested _ => True | _ => False end.

(** The collaborators with another behaviour of [os.unlink]. *)
Definition with_unlink (X : externals) (u : str -> option exn) : externals :=
  {| splitext_ext := splitext_ext X;
     tempfile_error := tempfile_error X;
     tempfile_name := tempfile_name X;
     paddle_init := paddle_init X;
     missing_file := missing_file X;
     groq_client_init := groq_client_init X;
     image_verify := image_verify X;
     paddle_ocr := paddle_ocr X;
     chat_completions_create := chat_completions_create X;
     os_unlink := u;
     format_exc := format_exc X |}.

(** Collaborators as a test mocks them: a fixed OCR answer, a fixed
    completion per request, a fixed behaviour of [os.unlink]. *)
Definition mock_externals (ocr : exn + ocr_result)
  (llm : chat_request -> exn + completion) (unlink : option exn) : externals :=
  {| splitext_ext := fun _ => py ".png";
     tempfile_error := fun _ _ => None;
     tempfile_name := fun _ suffix => py "/tmp/tmpq3x" ++ suffix;
     paddle_init := None;
     missing_file :=
       fun path => Exception (py "[Errno 2] No such file or directory: "
                                ++ py "'" ++ path ++ py "'");
     groq_client_init := fun _ => None;
     image_verify := fun _ => None;
     paddle_ocr := fun _ => ocr;
     chat_completions_create := fun _ _ req => llm req;
     os_unlink := fun _ => unlink;
     format_exc := fun _ => [] |}.

(** A fragment of the shape the client library streams:
    [chunk.choices[0].delta.content]. *)
Definition delta_chunk (content : pyval) : pyval :=
  PObj {[ py "choices" :=
            PList [PObj {[ py "delta" := PObj {[ py "content" := content ]} ]}] ]}.

Definition mock_region (t : str) : detection :=
  {| box := [[0; 0]; [1; 0]; [1; 1]; [0; 1]]%Q; text := t; confidence := (9 # 10)%Q |}.

Definition mock_upload : UploadFile :=
  {| filename := py "report.png"; content_type := Some (py "image/png");
     file_contents := [Byte.x89; Byte.x50; Byte.x4e; Byte.x47] |}.

Definition empty_world : world :=
  {| environ := ∅; files := ∅; processor := None; calls := [] |}.

Definition mock_processor : MedicalReportProcessor :=
  {| groq_client := py "gsk_test" |}.

(** The canned result of [process_medical_report] for an image without
    text. *)
Definition NO_TEXT_REPORT : report :=
  {| raw_text := []; report_explanation := NO_TEXT_EXPLANATION;
     report_highlights := [] |}.

Definition two_lines_externals : externals :=
  mock_externals
    (inr (Some [Some [mock_region (py "Line A"); mock_region (py "Line B")]]))
    (fun _ => inl (Exception [])) None.

Definition blank_lines_externals : externals :=
  mock_externals
    (inr (Some [Some [mock_region [SPACE]; mock_region [TAB]]]))
    (fun _ => inl (Exception [])) None.

Definition no_regions_externals : externals :=
  mock_externals (inr (Some [None])) (fun _ => inl (Exception [])) None.

Definition scan_world : world :=
  {| environ := ∅; files := {[ py "/tmp/scan.png" := [Byte.x89] ]};
     processor := None; calls := [] |}.

(** The request [_get_groq_response] sends. *)
Definition groq_request (messages : list message) (temperature : Q)
  (max_tokens : Z) : chat_request :=
  {| model := GROQ_MODEL; messages := messages; temperature := temperature;
     max_completion_tokens := max_tokens; top_p := 1; stream := true |}.

(** The two requests of [analyze_with_llm]. *)
Definition explanation_request (extracted_text : str) : chat_request :=
  groq_request
    [system_msg; {| role := py "user"; content := explanation_prompt extracted_text |}]
    (3 # 10) 512.

Definition highlights_request (extracted_text : str) : chat_request :=
  groq_request
    [system_msg; {| role := py "user"; content := highlights_prompt extracted_text |}]
    (3 # 10) 256.

(** A completed stream of the given fragments. *)
Definition streamed (cs : list pyval) : exn + completion :=
  inr {| chunks := cs; stream_error := None |}.

(** The world after one more call. *)
Definition after_call (w : world) (ev : event) : world :=
  {| environ := environ w; files := files w; processor := processor w;
     calls := calls w ++ [ev] |}.

(** A remote service that streams "Hel", "lo" whatever it is asked. *)
Definition hello_externals : externals :=
  mock_externals (inr (Some [Some [mock_region (py "Line A")]]))
    (fun _ => streamed [delta_chunk (PStr (py "Hel")); delta_chunk (PStr (py "lo"))])
    None.

(** The name of the temporary file of an accepted upload, and the world
    once the upload is stored under it. *)
Definition upload_suffix (X : externals) (file : UploadFile) : str :=
  if nonempty (splitext_ext X (filename file))
  then splitext_ext X (filename file) else py ".jpg".

Definition upload_name (X : externals) (file : UploadFile) (w : world) : str :=
  tempfile_name X (files w) (upload_suffix X file).

Definition stored_world (X : externals) (file : UploadFile) (w : world) : world :=
  {| environ := environ w;
     files := <[upload_name X file w := file_contents file]>
                (<[upload_name X file w := []]> (files w));
     processor := processor w;
     calls := calls w ++ [TempFileCreated (upload_name X file w)] |}.

(** What the handler does with the stored upload: initialisation on first
    use, the pipeline, the response. *)
Definition respond (X : externals) (name : str) : M world JSONResponse :=
  do processor <- ensure_processor X;
  do result <- process_medical_report X processor name;
  ret {| success := true;
         json_raw_text := raw_text result;
         json_explanation := report_explanation result;
         json_highlights := report_highlights result |}.

(** The outcome the [except] clauses of the handler make of an outcome. *)
Definition at_boundary (o : outcome JSONResponse) : outcome JSONResponse :=
  match o with
  | Return response => Return response
  | Raise (HTTPException status_code detail) =>
      Raise (HTTPException status_code detail)
  | Raise e =>
      Raise (HTTPException 500
               (py "Failed to process medical report: " ++ exn_str e))
  end.

(** The world after the [finally] block has run on file [name]. *)
Definition cleaned (X : externals) (name : str) (w : world) : world :=
  match os_unlink X name with
  | Some _ => after_call w (UnlinkCalled name)
  | None =>
      {| environ := environ w; files := delete name (files w);
         processor := processor w; calls := calls w ++ [UnlinkCalled name] |}
  end.

(** A world whose environment holds the credential. *)
Definition ready_world : world :=
  {| environ := {[ py "GROQ_API_KEY" := py "gsk_test" ]}; files := ∅;
     processor := None; calls := [] |}.

(** Collaborators whose [os.unlink] raises. *)
Definition failing_unlink_externals : externals :=
  mock_externals (inr (Some [None])) (fun _ => inl (Exception []))
    (Some (Exception (py "Permission denied"))).

Definition pdf_upload : UploadFile :=
  {| filename := py "report.pdf"; content_type := Some (py "application/pdf");
     file_contents := [Byte.x25; Byte.x50; Byte.x44; Byte.x46] |}.

(** An upload of 10 MiB and one byte. *)
Definition oversized_upload : UploadFile :=
  {| filename := py "report.png"; content_type := Some (py "image/png");
     file_contents := repeat Byte.x00 (N.to_nat 10485761) |}.

(** A line the model can return as one finding: it holds a character
    that is not whitespace, no line boundary, and neither starts nor ends
    with a character of the strip literal. *)
Definition clean_line (h : str) : bool :=
  nonempty (strip h)
  && forallb (fun c => negb (is_linebreak c)) h
  && match head h with Some c => negb (char_in STRIP_CHARS c) | None => true end
  && match last h with Some c => negb (char_in STRIP_CHARS c) | None => true end.

(** The exception a call to the chat-completion service ends with, if
    any: raised by the call itself, or by the iteration over its stream;
    and the fragments it delivered. *)
Definition service_error (r : exn + completion) : option exn :=
  match r with
  | inl e => Some e
  | inr c => stream_error c
  end.

Definition service_chunks (r : exn + completion) : list pyval :=
  match r with
  | inl _ => []
  | inr c => chunks c
  end.

(** The exception [_get_groq_response] makes of an exception. *)
Definition groq_failure (X : externals) (e : exn) : exn :=
  Exception (py "Groq API call failed: " ++ exn_str e ++ [LF] ++ format_exc X e).

(** The exception [analyze_with_llm] makes of an exception. *)
Definition llm_failure (e : exn) : exn :=
  Exception (py "LLM analysis (Groq) failed: " ++ exn_str e).

(** The exception [extract_text_from_image] makes of an exception. *)
Definition ocr_failure (e : exn) : exn :=
  Exception (py "OCR extraction failed: " ++ exn_str e).

(** The collaborators with another behaviour of image verification, and
    of the construction of the Groq client. *)
Definition with_image_verify (X : externals)
  (v : list Byte.byte -> option exn) : externals :=
  {| splitext_ext := splitext_ext X;
     tempfile_error := tempfile_error X;
     tempfile_name := tempfile_name X;
     paddle_init := paddle_init X;
     missing_file := missing_file X;
     groq_client_init := groq_client_init X;
     image_verify := v;
     paddle_ocr := paddle_ocr X;
     chat_completions_create := chat_completions_create X;
     os_unlink := os_unlink X;
     format_exc := format_exc X |}.

Definition with_groq_client_init (X : externals)
  (g : str -> option exn) : externals :=
  {| splitext_ext := splitext_ext X;
     tempfile_error := tempfile_error X;
     tempfile_name := tempfile_name X;
     paddle_init := paddle_init X;
     missing_file := missing_file X;
     groq_client_init := g;
     image_verify := image_verify X;
     paddle_ocr := paddle_ocr X;
     chat_completions_create := chat_completions_create X;
     os_unlink := os_unlink X;
     format_exc := format_exc X |}.

Definition corrupt_image_externals : externals :=
  with_image_verify hello_externals
    (fun _ => Some (Exception (py "cannot identify image file"))).

Definition bad_client_externals : externals :=
  with_groq_client_init hello_externals
    (fun _ => Some (Exception (py "proxy misconfigured"))).

(** The JSON body made of a report. *)
Definition json_of_report (r : report) : JSONResponse :=
  {| success := true;
     json_raw_text := raw_text r;
     json_explanation := report_explanation r;
     json_highlights := report_highlights r |}.

(** The world once the processor has been constructed with [key]. *)
Definition initialised_world (w : world) (key : str) : world :=
  {| environ := environ w; files := files w;
     processor := Some {| groq_client := key |};
     calls := calls w ++ [OcrEngineLoaded; GroqClientCreated] |}.

(** The environment and the processor are the same. *)
Definition same_settings (w w' : world) : Prop :=
  environ w' = environ w /\ processor w' = processor w.

(** The environment is the same. *)
Definition same_environ (w w' : world) : Prop := environ w' = environ w.

(** The calls the pipeline makes once a processor exists. *)
Definition is_pipeline_call (ev : event) : Prop :=
  match ev with
  | ImageVerified _ | OcrInvoked _ | ChatCompletionRequested _ => True
  | _ => False
  end.

(** A world whose processor is constructed. *)
Definition serving_world : world :=
  {| environ := {[ py "GROQ_API_KEY" := py "gsk_test" ]}; files := ∅;
     processor := Some mock_processor; calls := [] |}.

(** A world whose credential is set to the empty string. *)
Definition blank_key_world : world :=
  {| environ := {[ py "GROQ_API_KEY" := [] ]}; files := ∅;
     processor := None; calls := [] |}.

(** An upload of exactly 10 MiB. *)
Definition boundary_upload : UploadFile :=
  {| filename := py "report.png"; content_type := Some (py "image/png");
     file_contents := repeat Byte.x00 (N.to_nat 10485760) |}.

(** The text extraction makes of an OCR answer, and the text assembled
    from the fragments of a completed stream. *)
Definition ocr_text (result : ocr_result) : str :=
  join [LF] (List.map text (result_0 result)).

Definition assembled (cs : list pyval) : str :=
  strip (concat (List.map fragment_text cs)).

(** The calls of a first request up to the analysis: temporary file,
    construction of the processor, verification and OCR. *)
Definition calls_before_analysis (X : externals) (file : UploadFile)
  (w : world) : list event :=
  calls w ++ [TempFileCreated (upload_name X file w); OcrEngineLoaded;
              GroqClientCreated; ImageVerified (upload_name X file w);
              OcrInvoked (upload_name X file w)].

(** A chat service that fails on every request. *)
Definition llm_down_externals : externals :=
  mock_externals (inr (Some [Some [mock_region (py "Line A")]]))
    (fun _ => inl (Exception (py "connection refused"))) None.

(** A finding the model can return between commas: it holds no comma
    and no line feed, is not empty, and neither starts nor ends with
    whitespace. *)
Definition clean_piece (h : str) : bool :=
  nonempty h
  && forallb (fun c => negb (N.eqb c COMMA) && negb (N.eqb c LF)) h
  && match head h with Some c => negb (is_whitespace c) | None => true end
  && match last h with Some c => negb (is_whitespace c) | None => true end.

(** [needle in hay] for strings: [needle] occurs in [hay]. *)
Fixpoint is_prefix (p s : str) : bool :=
  match p, s with
  | [], _ => true
  | a :: p', b :: s' => N.eqb a b && is_prefix p' s'
  | _ :: _, [] => false
  end.

Fixpoint is_infix (needle hay : str) : bool :=
  is_prefix needle hay
  || match hay with
     | [] => false
     | _ :: hay' => is_infix needle hay'
     end.

(** The collaborators with another behaviour of the constructor of the
    OCR engine, and of the creation of the temporary file. *)
Definition with_paddle_init (X : externals) (e : option lib_exn) : externals :=
  {| splitext_ext := splitext_ext X;
     tempfile_error := tempfile_error X;
     tempfile_name := tempfile_name X;
     paddle_init := e;
     missing_file := missing_file X;
     groq_client_init := groq_client_init X;
     image_verify := image_verify X;
     paddle_ocr := paddle_ocr X;
     chat_completions_create := chat_completions_create X;
     os_unlink := os_unlink X;
     format_exc := format_exc X |}.

(** Collaborators whose OCR engine cannot be constructed. *)
Definition engine_down_externals : externals :=
  with_paddle_init two_lines_externals
    (Some (LibException (py "model download failed"))).

(** The calls that construct the processor on a request that finds
    none. *)
Definition init_calls (w : world) : list event :=
  match processor w with
  | Some _ => []
  | None => [OcrEngineLoaded; GroqClientCreated]
  end.


(** * Properties *)

(** ** Stripping *)

Section Stripping.
Variable p : char -> bool.

Lemma lstrip_with_head s c r : lstrip_with p s = c :: r -> p c = false.
Proof.
  induction s as [|a s IH]; simpl; [discriminate|].
  destruct (p a) eqn:Ha; [exact IH|].
  intros [= <- _]. exact Ha.
Qed.

Lemma lstrip_with_snoc l c :
  p c = false -> lstrip_with p (l ++ [c]) = lstrip_with p l ++ [c].
Proof.
  intros Hc. induction l as [|a l IH]; simpl.
  - now rewrite Hc.
  - destruct (p a); [exact IH | reflexivity].
Qed.

Lemma rstrip_with_cons c r :
  p c = false -> rstrip_with p (c :: r) = c :: rstrip_with p r.
Proof.
  intros Hc. unfold rstrip_with. simpl.
  rewrite lstrip_with_snoc by exact Hc.
  now rewrite rev_app_distr.
Qed.

Lemma lstrip_with_all s : forallb p s = true -> lstrip_with p s = [].
Proof.
  induction s as [|a s IH]; simpl; [reflexivity|].
  destruct (p a); simpl; [exact IH | discriminate].
Qed.

Lemma lstrip_with_In s c : In c (lstrip_with p s) -> In c s.
Proof.
  induction s as [|a s IH]; simpl; [tauto|].
  destruct (p a); [right; now apply IH | tauto].
Qed.

Lemma strip_with_all s : forallb p s = true -> strip_with p s = [].
Proof.
  intros H. unfold strip_with. now rewrite lstrip_with_all.
Qed.

Lemma strip_with_head s c : head (strip_with p s) = Some c -> p c = false.
Proof.
  unfold strip_with.
  destruct (lstrip_with p s) as [|a r] eqn:E; [discriminate|].
  pose proof (lstrip_with_head _ _ _ E) as Ha.
  rewrite rstrip_with_cons by exact Ha.
  simpl. now intros [= <-].
Qed.

Lemma last_rev_head (l : str) : last (rev l) = head l.
Proof.
  destruct l as [|a l]; [reflexivity|]. simpl. apply last_snoc.
Qed.

Lemma strip_with_last s c : last (strip_with p s) = Some c -> p c = false.
Proof.
  unfold strip_with, rstrip_with. rewrite last_rev_head.
  destruct (lstrip_with p (rev (lstrip_with p s))) as [|a r] eqn:E;
    [discriminate|].
  simpl. intros [= <-]. exact (lstrip_with_head _ _ _ E).
Qed.

(** A string that does not strip to nothing holds a character outside
    the stripped class. *)
Lemma strip_with_nonempty s :
  nonempty (strip_with p s) = true -> exists c, In c s /\ p c = false.
Proof.
  intros H.
  destruct (strip_with p s) as [|c r] eqn:E; [discriminate|].
  exists c. split.
  - assert (Hin : In c (strip_with p s)) by (rewrite E; now left).
    unfold strip_with, rstrip_with in Hin.
    apply in_rev, lstrip_with_In, in_rev in Hin.
    now apply lstrip_with_In in Hin.
  - apply (strip_with_head s). now rewrite E.
Qed.
End Stripping.

Lemma char_in_true chars c : char_in chars c = true <-> In c chars.
Proof.
  unfold char_in. rewrite existsb_exists. split.
  - intros (x & Hx & Heq). apply N.eqb_eq in Heq. now subst.
  - intros H. exists c. split; [exact H | apply N.eqb_refl].
Qed.

Lemma contains_nonempty c s : contains c s = true -> nonempty s = true.
Proof. destruct s; [discriminate | reflexivity]. Qed.

(** ** Highlights parsing *)

Lemma split_highlights_newline t :
  contains LF t = true ->
  split_highlights t =
    List.map (strip_chars STRIP_CHARS)
      (List.filter (fun h => nonempty (strip h)) (splitlines t)).
Proof.
  intros H. unfold split_highlights.
  now rewrite (contains_nonempty _ _ H), H.
Qed.

Lemma split_highlights_comma t :
  nonempty t = true -> contains LF t = false ->
  split_highlights t =
    List.map strip
      (List.filter (fun h => nonempty (strip h)) (split COMMA t)).
Proof.
  intros Ht H. unfold split_highlights. now rewrite Ht, H.
Qed.

Lemma STRIP_CHARS_ascii c :
  char_in STRIP_CHARS c = false -> c <> HYPHEN /\ c <> SPACE /\ c <> TAB.
Proof.
  intros H. repeat split; intros ->; discriminate H.
Qed.

(** C1, as the specification states it, fails: in the comma branch only
    whitespace is stripped, so on the newline-free response ["-a, b"] the
    first parsed item keeps its leading hyphen. *)
Lemma comma_branch_keeps_leading_hyphen :
  nonempty (py "-a, b") = true /\
  contains LF (py "-a, b") = false /\
  parse_highlights (py "-a, b") = [py "-a"; py "b"] /\
  ~ (forall h, In h (parse_highlights (py "-a, b")) ->
       lstrip_with (char_in SPEC_DECORATIVE_CHARS) h = h).
Proof.
  repeat split.
  intros H. specialize (H (py "-a") (or_introl eq_refl)). discriminate H.
Qed.

(** C1 (amended). For a non-empty highlights response: if it contains a
    newline, the items are its lines ([splitlines]) that do not strip to
    nothing, each stripped at both ends of the characters of the literal
    (among them hyphen, space and tab); otherwise the items are the
    comma-separated pieces that do not strip to nothing, each stripped of
    surrounding whitespace only; the parsed highlights are the first five
    items, or the raw response alone when there is no item; and the two
    responses of the specification parse as it says. *)
Theorem parse_highlights_branches (t : str) (Ht : nonempty t = true) :
  (contains LF t = true ->
     split_highlights t =
       List.map (strip_chars STRIP_CHARS)
         (List.filter (fun h => nonempty (strip h)) (splitlines t)) /\
     forall h c, In h (split_highlights t) ->
       head h = Some c \/ last h = Some c ->
       c <> HYPHEN /\ c <> SPACE /\ c <> TAB) /\
  (contains LF t = false ->
     split_highlights t =
       List.map strip
         (List.filter (fun h => nonempty (strip h)) (split COMMA t)) /\
     forall h, In h (split_highlights t) ->
       nonempty h = true /\
       forall c, head h = Some c \/ last h = Some c -> is_whitespace c = false) /\
  parse_highlights t =
    firstn 5 (match split_highlights t with [] => [t] | items => items end) /\
  parse_highlights (py "- finding one" ++ [LF] ++ py "- finding two")
    = [py "finding one"; py "finding two"] /\
  parse_highlights (py "a, b, c") = [py "a"; py "b"; py "c"].
Proof.
  split; [|split; [|split; [|split; reflexivity]]].
  - intros Hnl. split; [now apply split_highlights_newline|].
    intros h c Hin Hc.
    rewrite (split_highlights_newline _ Hnl) in Hin.
    apply in_map_iff in Hin as (line & <- & _).
    apply STRIP_CHARS_ascii.
    destruct Hc as [Hc|Hc];
      [eapply strip_with_head | eapply strip_with_last]; exact Hc.
  - intros Hnl. split; [now apply split_highlights_comma|].
    intros h Hin.
    rewrite (split_highlights_comma _ Ht Hnl) in Hin.
    apply in_map_iff in Hin as (piece & <- & Hin).
    apply filter_In in Hin as [_ Hne].
    split; [exact Hne|].
    intros c [Hc|Hc];
      [eapply strip_with_head | eapply strip_with_last]; exact Hc.
  - unfold parse_highlights, highlights_or_raw. rewrite Ht.
    now destruct (split_highlights t).
Qed.

Lemma parse_highlights_branches_witness :
  nonempty (py "x, y") = true /\
  contains LF (py "x, y") = false /\
  split_highlights (py "x, y") =
    List.map strip
      (List.filter (fun h => nonempty (strip h)) (split COMMA (py "x, y"))) /\
  parse_highlights (py "x, y") =
    firstn 5 (match split_highlights (py "x, y") with
              | [] => [py "x, y"]
              | items => items
              end).
Proof.
  destruct (parse_highlights_branches (py "x, y") eq_refl)
    as (_ & Hcomma & Hparse & _).
  destruct (Hcomma eq_refl) as [Hitems _].
  split; [reflexivity|]. split; [reflexivity|]. split; assumption.
Defined.

Lemma parse_highlights_length t : (length (parse_highlights t) <= 5)%nat.
Proof. unfold parse_highlights. apply firstn_le_length. Qed.

(** C10. In the newline branch the blank-line filter runs before the
    characters of the literal are stripped: a line that does not strip to
    nothing as whitespace but consists of characters of the literal only
    (a lone hyphen, say) passes the filter and becomes the empty string,
    so the parsed highlights can hold empty strings. *)
Theorem decoration_only_line_yields_empty_item :
  (forall t line,
     contains LF t = true ->
     In line (splitlines t) ->
     nonempty (strip line) = true ->
     forallb (char_in STRIP_CHARS) line = true ->
     In [] (split_highlights t)) /\
  nonempty (strip (py "-")) = true /\
  strip_chars STRIP_CHARS (py "-") = [] /\
  parse_highlights (py "a" ++ [LF] ++ py "-") = [py "a"; []].
Proof.
  split; [|repeat split].
  intros t line Hnl Hin Hkeep Hall.
  rewrite (split_highlights_newline _ Hnl).
  apply in_map_iff. exists line. split.
  - now apply strip_with_all.
  - apply filter_In. now split.
Qed.

Lemma decoration_only_line_yields_empty_item_witness :
  contains LF (py "a" ++ [LF] ++ py "-") = true /\
  In (py "-") (splitlines (py "a" ++ [LF] ++ py "-")) /\
  In [] (split_highlights (py "a" ++ [LF] ++ py "-")).
Proof.
  split; [reflexivity|]. split; [right; left; reflexivity|].
  apply (proj1 decoration_only_line_yields_empty_item _ (py "-"));
    [reflexivity | right; left; reflexivity | reflexivity | reflexivity].
Defined.

(** ** What a computation leaves alone *)

Section Frame.
Variable R : world -> world -> Prop.
Hypothesis R_refl : forall w, R w w.
Hypothesis R_trans : forall w1 w2 w3, R w1 w2 -> R w2 w3 -> R w1 w3.

Lemma respects_ret {A} (a : A) : respects R (ret a).
Proof. intros w. apply R_refl. Qed.

Lemma respects_raise {A} (e : exn) : respects R (raise (A := A) e).
Proof. intros w. apply R_refl. Qed.

Lemma respects_get : respects R get.
Proof. intros w. apply R_refl. Qed.

Lemma respects_of_result {A} (r : exn + A) : respects R (of_result r).
Proof. destruct r; [apply respects_raise | apply respects_ret]. Qed.

Lemma respects_bind {A B} (c : M world A) (k : A -> M world B) :
  respects R c -> (forall a, respects R (k a)) -> respects R (bind c k).
Proof.
  intros Hc Hk w. unfold bind. specialize (Hc w).
  destruct (c w) as [[a|e] w1]; simpl in *; [|exact Hc].
  eapply R_trans; [exact Hc | apply Hk].
Qed.

Lemma respects_try_except {A} (c : M world A) (h : exn -> M world A) :
  respects R c -> (forall e, respects R (h e)) -> respects R (try_except c h).
Proof.
  intros Hc Hh w. unfold try_except. specialize (Hc w).
  destruct (c w) as [[a|e] w1]; simpl in *; [exact Hc|].
  eapply R_trans; [exact Hc | apply Hh].
Qed.
End Frame.

Lemma same_files_refl w : same_files w w.
Proof. reflexivity. Qed.

Lemma same_files_trans w1 w2 w3 :
  same_files w1 w2 -> same_files w2 w3 -> same_files w1 w3.
Proof. unfold same_files. congruence. Qed.

Lemma more_calls_refl P w : more_calls P w w.
Proof. exists []. split; [now rewrite app_nil_r | constructor]. Qed.

Lemma more_calls_trans P w1 w2 w3 :
  more_calls P w1 w2 -> more_calls P w2 w3 -> more_calls P w1 w3.
Proof.
  intros (e1 & H1 & F1) (e2 & H2 & F2). exists (e1 ++ e2). split.
  - rewrite H2, H1. now rewrite app_assoc.
  - apply Forall_app. now split.
Qed.

Lemma same_files_log ev : respects same_files (log ev).
Proof. intros w. reflexivity. Qed.

Lemma same_files_set_processor p : respects same_files (set_processor p).
Proof. intros w. reflexivity. Qed.

Lemma more_calls_log (P : event -> Prop) ev : P ev -> respects (more_calls P) (log ev).
Proof.
  intros H w. exists [ev]. split; [reflexivity | now repeat constructor].
Qed.

Lemma more_calls_set_processor P p : respects (more_calls P) (set_processor p).
Proof.
  intros w. exists []. split; [simpl; now rewrite app_nil_r | constructor].
Qed.

(** Decomposes a computation along its binds, handlers and case
    distinctions, leaving what the primitive steps must satisfy. *)
Ltac preorder :=
  first [ exact same_files_refl | exact same_files_trans
        | apply more_calls_refl | apply more_calls_trans ].

Ltac frame_step :=
  first
    [ apply same_files_log
    | apply same_files_set_processor
    | apply more_calls_set_processor
    | eapply respects_bind; [preorder | |]
    | eapply respects_try_except; [preorder | |]
    | apply respects_ret; preorder
    | apply respects_raise; preorder
    | apply respects_get; preorder
    | apply respects_of_result; preorder
    | progress cbv beta zeta
    | match goal with
      | |- respects _ (match ?x with _ => _ end) => destruct x
      | |- forall _, _ => intro
      end
    | apply more_calls_log ].

Ltac frame := repeat frame_step.

Lemma MedicalReportProcessor_init_files X :
  respects same_files (MedicalReportProcessor_init X).
Proof. unfold MedicalReportProcessor_init. frame. Qed.

Lemma ensure_processor_files X : respects same_files (ensure_processor X).
Proof.
  unfold ensure_processor. frame.
Qed.

Lemma extract_text_from_image_files X image_path :
  respects same_files (extract_text_from_image X image_path).
Proof.
  unfold extract_text_from_image, Image_open_verify, ocr_ocr. frame.
Qed.

Lemma _get_groq_response_files X self messages temperature max_tokens :
  respects same_files (_get_groq_response X self messages temperature max_tokens).
Proof. unfold _get_groq_response, chat_create. frame. Qed.

Lemma analyze_with_llm_files X self extracted_text :
  respects same_files (analyze_with_llm X self extracted_text).
Proof.
  unfold analyze_with_llm. frame.
Qed.

Lemma process_medical_report_files X self image_path :
  respects same_files (process_medical_report X self image_path).
Proof.
  unfold process_medical_report. frame.
Qed.

(** ** Text extraction *)

Lemma collect_lines (regions : list detection) (acc : list str) :
  fold_left (fun lines line => lines ++ [text line]) regions acc
  = acc ++ List.map text regions.
Proof.
  revert acc. induction regions as [|r regions IH]; intros acc; simpl.
  - now rewrite app_nil_r.
  - rewrite IH. now rewrite <- app_assoc.
Qed.

Lemma no_regions_result_0 result :
  no_regions result = true <-> result_0 result = [].
Proof.
  destruct result as [[|[[|r regions]|] pages]|]; simpl; split;
    intros; congruence.
Qed.

(** A run of the extractor on a readable image on which the engine
    answers. *)
Lemma extract_text_from_image_run X image_path w contents result :
  files w !! image_path = Some contents ->
  image_verify X contents = None ->
  paddle_ocr X contents = inr result ->
  extract_text_from_image X image_path w =
    (Return (join [LF] (List.map text (result_0 result))),
     {| environ := environ w; files := files w; processor := processor w;
        calls := (calls w ++ [ImageVerified image_path])
                   ++ [OcrInvoked image_path] |}).
Proof.
  intros Hfile Hverify Hocr.
  unfold extract_text_from_image, Image_open_verify, ocr_ocr, try_except,
    bind, log, modify, get; simpl.
  rewrite Hfile, Hverify; simpl. rewrite Hfile, Hocr; simpl.
  destruct (no_regions result) eqn:Hno.
  - apply no_regions_result_0 in Hno. now rewrite Hno.
  - unfold ret. now rewrite collect_lines.
Qed.

(** C5. On a readable image on which the engine answers,
    [extract_text_from_image] returns the empty string when the engine
    reports no regions, and otherwise the texts of the regions of the
    first page, whatever their boxes and confidence scores, joined with a
    newline in the engine's order; two regions reading "Line A" and
    "Line B" give "Line A\nLine B". *)
Theorem extract_text_from_image_joins_regions X image_path w contents result
  (Hfile : files w !! image_path = Some contents)
  (Hverify : image_verify X contents = None)
  (Hocr : paddle_ocr X contents = inr result) :
  (no_regions result = true ->
     fst (extract_text_from_image X image_path w) = Return []) /\
  (forall regions pages,
     result = Some (Some regions :: pages) ->
     fst (extract_text_from_image X image_path w)
     = Return (join [LF] (List.map text regions))) /\
  (forall b1 c1 b2 c2 pages,
     result = Some (Some [ {| box := b1; text := py "Line A"; confidence := c1 |};
                           {| box := b2; text := py "Line B"; confidence := c2 |} ]
                      :: pages) ->
     fst (extract_text_from_image X image_path w)
     = Return (py "Line A" ++ [LF] ++ py "Line B")).
Proof.
  rewrite (extract_text_from_image_run _ _ _ _ _ Hfile Hverify Hocr); simpl.
  split; [|split].
  - intros Hno. apply no_regions_result_0 in Hno. now rewrite Hno.
  - now intros regions pages ->.
  - now intros b1 c1 b2 c2 pages ->.
Qed.

Lemma extract_text_from_image_joins_regions_witness :
  files scan_world !! py "/tmp/scan.png" = Some [Byte.x89] /\
  fst (extract_text_from_image two_lines_externals (py "/tmp/scan.png") scan_world)
  = Return (py "Line A" ++ [LF] ++ py "Line B").
Proof.
  split; [reflexivity|].
  eapply (extract_text_from_image_joins_regions two_lines_externals
            (py "/tmp/scan.png") scan_world [Byte.x89] _); reflexivity.
Defined.

(** ** The orchestrator *)

Lemma chat_requests_more_calls w w' :
  more_calls (fun ev => ~ is_chat_request ev) w w' ->
  chat_requests w' = chat_requests w.
Proof.
  intros (evs & Hcalls & Hevs). unfold chat_requests. rewrite Hcalls.
  rewrite omap_app.
  assert (Hnil : forall A (f : event -> option A),
             (forall ev, ~ is_chat_request ev -> f ev = None) ->
             omap f evs = []).
  { intros A f Hf. clear Hcalls.
    induction Hevs as [|ev evs Hev _ IH]; [reflexivity|].
    simpl. rewrite (Hf ev Hev). exact IH. }
  rewrite Hnil; [apply app_nil_r|].
  intros [] H; try reflexivity. now destruct H.
Qed.

Lemma extract_text_from_image_no_chat X image_path :
  respects (more_calls (fun ev => ~ is_chat_request ev))
    (extract_text_from_image X image_path).
Proof.
  unfold extract_text_from_image, Image_open_verify, ocr_ocr.
  frame; simpl; tauto.
Qed.

(** C2. When the extracted text is empty, [process_medical_report]
    returns exactly the canned no-text result and requests no chat
    completion; a run that requests one has extracted a non-empty text. *)
Theorem empty_text_skips_analyzer X self image_path w :
  (forall w1,
     extract_text_from_image X image_path w = (Return [], w1) ->
     process_medical_report X self image_path w = (Return NO_TEXT_REPORT, w1) /\
     chat_requests w1 = chat_requests w) /\
  (chat_requests (snd (process_medical_report X self image_path w))
     <> chat_requests w ->
   exists t w1,
     extract_text_from_image X image_path w = (Return t, w1) /\ t <> []).
Proof.
  pose proof (extract_text_from_image_no_chat X image_path w) as Hframe.
  apply chat_requests_more_calls in Hframe.
  unfold process_medical_report, bind.
  destruct (extract_text_from_image X image_path w) as [[t|e] w1]; simpl in *.
  - split.
    + intros w2 [= -> <-]. split; [reflexivity | exact Hframe].
    + destruct (nonempty (strip t)) eqn:Hne; simpl.
      * intros _. exists t, w1. split; [reflexivity|].
        intros ->. discriminate Hne.
      * intros H. now destruct H.
  - split; [discriminate|]. intros H. now destruct H.
Qed.

Lemma empty_text_skips_analyzer_witness :
  extract_text_from_image no_regions_externals (py "/tmp/scan.png") scan_world
    = (Return [],
       snd (extract_text_from_image no_regions_externals (py "/tmp/scan.png")
              scan_world)) /\
  fst (process_medical_report no_regions_externals mock_processor
         (py "/tmp/scan.png") scan_world) = Return NO_TEXT_REPORT /\
  chat_requests (snd (process_medical_report no_regions_externals mock_processor
                        (py "/tmp/scan.png") scan_world)) = [].
Proof.
  destruct (proj1 (empty_text_skips_analyzer no_regions_externals mock_processor
                     (py "/tmp/scan.png") scan_world) _ eq_refl) as [Hrun Hchat].
  split; [reflexivity|]. rewrite Hrun. split; [reflexivity | exact Hchat].
Defined.

(** C9. A text made of whitespace only is treated as no text: the result
    is the canned one, with the empty string as [raw_text]; so the
    [raw_text] of a result is empty or holds a character that is not
    whitespace. *)
Theorem whitespace_text_is_no_text X self image_path w :
  (forall t w1,
     extract_text_from_image X image_path w = (Return t, w1) ->
     forallb is_whitespace t = true ->
     process_medical_report X self image_path w = (Return NO_TEXT_REPORT, w1)) /\
  (forall r w',
     process_medical_report X self image_path w = (Return r, w') ->
     raw_text r = [] \/
     exists c, In c (raw_text r) /\ is_whitespace c = false).
Proof.
  unfold process_medical_report, bind.
  destruct (extract_text_from_image X image_path w) as [[t|e] w1]; simpl.
  - split.
    + intros t' w2 [= <- <-] Hws.
      unfold strip. now rewrite strip_with_all.
    + intros r w'. destruct (nonempty (strip t)) eqn:Hne; simpl.
      * destruct (analyze_with_llm X self t w1) as [[a|e] w2]; simpl;
          [|discriminate].
        intros [= <- _]. right. simpl.
        now apply (strip_with_nonempty is_whitespace).
      * intros [= <- _]. now left.
  - split; discriminate.
Qed.

Lemma whitespace_text_is_no_text_witness :
  fst (extract_text_from_image blank_lines_externals (py "/tmp/scan.png")
         scan_world) = Return [SPACE; LF; TAB] /\
  forallb is_whitespace [SPACE; LF; TAB] = true /\
  fst (process_medical_report blank_lines_externals mock_processor
         (py "/tmp/scan.png") scan_world) = Return NO_TEXT_REPORT.
Proof.
  split; [reflexivity|]. split; [reflexivity|].
  now rewrite (proj1 (whitespace_text_is_no_text blank_lines_externals
                        mock_processor (py "/tmp/scan.png") scan_world)
                 [SPACE; LF; TAB] _ eq_refl eq_refl).
Defined.

(** ** The streamed response *)

(** Case analysis along the lookups of an attempt. *)
Ltac attempt_cases :=
  repeat
    (simpl;
     match goal with
     | |- context [getattr ?v ?k ≫= _] => destruct (getattr v k)
     | |- context [getitem ?v ?k ≫= _] => destruct (getitem v k)
     | |- context [getitem0 ?v ≫= _] => destruct (getitem0 v)
     | |- context [dict_get ?v ?k ≫= _] => destruct (dict_get v k)
     | |- context [if truthy ?v then _ else _] => destruct (truthy v)
     | |- context [if negb (truthy ?v) then _ else _] => destruct (truthy v)
     | |- context [iadd _ ?v] => destruct v
     end);
  simpl; rewrite ?app_nil_r; reflexivity.

Lemma append_from_attributes_appends response_text chunk :
  append_from_attributes response_text chunk
  = (fun s => response_text ++ s) <$> append_from_attributes [] chunk.
Proof. unfold append_from_attributes. attempt_cases. Qed.

Lemma append_from_mapping_appends response_text chunk :
  append_from_mapping response_text chunk
  = (fun s => response_text ++ s) <$> append_from_mapping [] chunk.
Proof. unfold append_from_mapping. attempt_cases. Qed.

Lemma append_from_text_appends response_text chunk :
  append_from_text response_text chunk
  = (fun s => response_text ++ s) <$> append_from_text [] chunk.
Proof. unfold append_from_text. attempt_cases. Qed.

(** An iteration only ever appends to [response_text]. *)
Lemma consume_chunk_appends response_text chunk :
  consume_chunk response_text chunk = response_text ++ fragment_text chunk.
Proof.
  unfold fragment_text, consume_chunk.
  rewrite (append_from_attributes_appends response_text),
    (append_from_mapping_appends response_text),
    (append_from_text_appends response_text).
  destruct (append_from_attributes [] chunk); [reflexivity|].
  destruct (append_from_mapping [] chunk); [reflexivity|].
  destruct (append_from_text [] chunk); [reflexivity|].
  simpl. now rewrite app_nil_r.
Qed.

Lemma consume_chunks response_text cs :
  fold_left consume_chunk cs response_text
  = response_text ++ concat (List.map fragment_text cs).
Proof.
  revert response_text. induction cs as [|c cs IH]; intros response_text; simpl.
  - now rewrite app_nil_r.
  - rewrite IH, consume_chunk_appends. now rewrite <- app_assoc.
Qed.


(** A mapping without "choices" makes the mapping attempt complete
    without raising, so its "text" entry is never consulted. *)
Lemma text_only_mapping_contributes_nothing s :
  fragment_text (PDict {[ py "text" := PStr s ]}) = [].
Proof. reflexivity. Qed.

(** The "text" entry is consulted when the mapping attempt raises, as on
    a mapping whose "choices" is a string. *)
Lemma text_entry_after_failed_mapping_attempt :
  fragment_text (PDict {[ py "choices" := PStr (py "zz");
                          py "text" := PStr (py "hi") ]}) = py "hi".
Proof. reflexivity. Qed.

(** A run of [_get_groq_response] whose stream completes. *)
Lemma _get_groq_response_run X self messages temperature max_tokens w cs :
  chat_completions_create X (groq_client self) (calls w)
    (groq_request messages temperature max_tokens) = streamed cs ->
  _get_groq_response X self messages temperature max_tokens w
  = (Return (strip (concat (List.map fragment_text cs))),
     after_call w (ChatCompletionRequested
                     (groq_request messages temperature max_tokens))).
Proof.
  intros Hcreate.
  unfold _get_groq_response, chat_create, try_except, bind, get, log, modify.
  simpl. fold (groq_request messages temperature max_tokens).
  rewrite Hcreate. simpl. now rewrite consume_chunks.
Qed.


Lemma lstrip_with_suffix p s :
  exists prefix, s = prefix ++ lstrip_with p s /\ forallb p prefix = true.
Proof.
  induction s as [|c s (prefix & Hs & Hp)]; simpl.
  - now exists [].
  - destruct (p c) eqn:Hc.
    + exists (c :: prefix). simpl. rewrite Hc, Hp. split; [|reflexivity].
      now rewrite <- Hs.
    + now exists [].
Qed.





(** C8. The parsed highlights are at most five, whatever the remote
    service answers; and a non-empty response from which splitting keeps
    no item gives the raw response as the only highlight. *)
Theorem highlights_at_most_five :
  (forall t, (length (parse_highlights t) <= 5)%nat) /\
  (forall t,
     nonempty t = true -> split_highlights t = [] ->
     parse_highlights t = [t]) /\
  (forall X self extracted_text w a w',
     analyze_with_llm X self extracted_text w = (Return a, w') ->
     (length (highlights a) <= 5)%nat).
Proof.
  split; [exact parse_highlights_length|]. split.
  - intros t Ht Hsplit. unfold parse_highlights, highlights_or_raw.
    now rewrite Hsplit, Ht.
  - intros X self extracted_text w a w'.
    unfold analyze_with_llm, try_except, bind.
    destruct (_get_groq_response _ _ _ _ _ w) as [[e1|e1] w1]; simpl;
      [|discriminate].
    destruct (_get_groq_response _ _ _ _ _ w1) as [[t|e2] w2]; simpl;
      [|discriminate].
    intros [= <- _]. simpl. apply parse_highlights_length.
Qed.

Lemma highlights_at_most_five_witness :
  nonempty (py ",") = true /\
  split_highlights (py ",") = [] /\
  parse_highlights (py ",") = [py ","].
Proof.
  split; [reflexivity|]. split; [reflexivity|].
  exact (proj1 (proj2 highlights_at_most_five) (py ",") eq_refl eq_refl).
Defined.

(** ** The request handler *)

Lemma respond_files X name : respects same_files (respond X name).
Proof. unfold respond. frame. Qed.

Lemma cleanup_unbound X w : cleanup X (w, None) = (Return tt, (w, None)).
Proof. reflexivity. Qed.

(** The [finally] block on an existing file: [os.unlink] is called, and
    whether it fails or not the block completes. *)
Lemma cleanup_bound X w name :
  is_Some (files w !! name) ->
  cleanup X (w, Some name) = (Return tt, (cleaned X name w, Some name)).
Proof.
  intros Hexists.
  unfold cleanup, bind, get, os_path_exists, cleaned. cbn [fst snd].
  rewrite (bool_decide_eq_true_2 _ Hexists).
  unfold in_world, try_except, unlink, bind, log, modify. cbn [fst snd].
  destruct (os_unlink X name); reflexivity.
Qed.

(** A request that passes validation and whose temporary file is
    created: the upload is stored, the pipeline runs, its outcome is
    mapped at the boundary, the file is unlinked. *)
Lemma analyze_report_accepted X file w :
  type_not_allowed file = false ->
  too_large (file_contents file) = false ->
  tempfile_error X (files w) (upload_suffix X file) = None ->
  analyze_report X file w =
    (at_boundary (fst (respond X (upload_name X file w) (stored_world X file w))),
     cleaned X (upload_name X file w)
       (snd (respond X (upload_name X file w) (stored_world X file w)))).
Proof.
  intros Htype Hsize Hcreated.
  pose proof (respond_files X (upload_name X file w) (stored_world X file w))
    as Hfiles.
  assert (Hexists : is_Some (files (snd (respond X (upload_name X file w)
                                           (stored_world X file w)))
                               !! upload_name X file w)).
  { rewrite Hfiles. unfold stored_world; simpl.
    rewrite lookup_insert_eq. now eexists. }
  revert Hexists. clear Hfiles.
  unfold analyze_report. rewrite Htype, Hsize.
  unfold respond. unfold upload_suffix in Hcreated.
  cbv beta iota zeta delta
    [with_locals try_finally try_except bind in_world NamedTemporaryFile
     temp_file_write set_temp_file set_files log modify get ret fst snd
     upload_name upload_suffix stored_world].
  rewrite Hcreated.
  cbv beta iota zeta delta
    [with_locals try_finally try_except bind in_world NamedTemporaryFile
     temp_file_write set_temp_file set_files log modify get ret fst snd].
  cbn [environ files processor calls].
  destruct (ensure_processor X _) as [[p|e] w3].
  - destruct (process_medical_report X p _ w3) as [[r|e] w4];
      intros Hexists; cbv beta iota zeta;
      [|destruct e; unfold raise]; rewrite (cleanup_bound _ _ _ Hexists);
      reflexivity.
  - intros Hexists. cbv beta iota zeta.
    destruct e; unfold raise; rewrite (cleanup_bound _ _ _ Hexists);
      reflexivity.
Qed.

(** A request that passes validation and whose temporary file cannot be
    created: the exception is mapped at the boundary and nothing was
    done. *)
Lemma analyze_report_no_temp_file X file w e :
  type_not_allowed file = false ->
  too_large (file_contents file) = false ->
  tempfile_error X (files w) (upload_suffix X file) = Some e ->
  analyze_report X file w = (at_boundary (Raise (exn_of_lib e)), w).
Proof.
  intros Htype Hsize Herror.
  unfold analyze_report. rewrite Htype, Hsize.
  unfold upload_suffix in Herror.
  cbv beta iota zeta delta
    [with_locals try_finally try_except bind in_world NamedTemporaryFile
     get fst snd].
  rewrite Herror. now destruct e.
Qed.

Lemma analyze_report_wrong_type X file w :
  type_not_allowed file = true ->
  analyze_report X file w =
    (Raise (HTTPException 400
              (py "Invalid file type. Allowed types: "
                 ++ join (py ", ") allowed_types)), w).
Proof. intros H. unfold analyze_report. now rewrite H. Qed.

Lemma analyze_report_too_large X file w :
  type_not_allowed file = false ->
  too_large (file_contents file) = true ->
  analyze_report X file w =
    (Raise (HTTPException 400 (py "File too large. Maximum size is 10MB")), w).
Proof.
  intros Htype Hsize. unfold analyze_report. rewrite Htype.
  unfold with_locals, try_finally, try_except. rewrite Hsize. reflexivity.
Qed.

(** C4. An upload whose declared content type is not one of image/jpeg,
    image/jpg, image/png, image/bmp, image/tiff is rejected with status
    400, and so is one of an allowed type whose body is longer than
    10 * 1024 * 1024 bytes; in both cases the world is left as it was: no
    temporary file is created and no collaborator (OCR, LLM) is called. *)
Theorem invalid_upload_rejected X file w :
  allowed_types =
    [py "image/jpeg"; py "image/jpg"; py "image/png"; py "image/bmp";
     py "image/tiff"] /\
  ((forall t, content_type file = Some t -> t ∉ allowed_types) ->
   exists detail,
     analyze_report X file w = (Raise (HTTPException 400 detail), w)) /\
  ((exists t, content_type file = Some t /\ t ∈ allowed_types) ->
   (10 * 1024 * 1024 < Z.of_nat (length (file_contents file)))%Z ->
   exists detail,
     analyze_report X file w = (Raise (HTTPException 400 detail), w)).
Proof.
  split; [reflexivity|]. split.
  - intros Hnot. eexists. apply analyze_report_wrong_type.
    unfold type_not_allowed. destruct (content_type file) as [t|];
      [|reflexivity].
    apply negb_true_iff, bool_decide_eq_false. now apply Hnot.
  - intros (t & Ht & Hin) Hlen. eexists. apply analyze_report_too_large.
    + unfold type_not_allowed. rewrite Ht.
      apply negb_false_iff, bool_decide_eq_true. exact Hin.
    + unfold too_large. now apply Z.ltb_lt.
Qed.

Lemma invalid_upload_rejected_witness :
  (exists detail,
     analyze_report failing_unlink_externals pdf_upload ready_world
     = (Raise (HTTPException 400 detail), ready_world)) /\
  (exists detail,
     analyze_report failing_unlink_externals oversized_upload ready_world
     = (Raise (HTTPException 400 detail), ready_world)).
Proof.
  split.
  - apply (proj1 (proj2 (invalid_upload_rejected failing_unlink_externals
                           pdf_upload ready_world))).
    intros t [= <-]. apply (bool_decide_eq_false _). reflexivity.
  - apply (proj2 (proj2 (invalid_upload_rejected failing_unlink_externals
                           oversized_upload ready_world))).
    + exists (py "image/png"). split; [reflexivity|].
      apply (bool_decide_eq_true _). reflexivity.
    + unfold oversized_upload. cbn [file_contents].
      rewrite repeat_length. lia.
Defined.

Lemma respond_calls X name :
  respects (more_calls (fun _ => True)) (respond X name).
Proof. unfold respond. frame; exact I. Qed.

(** Every run of [MedicalReportProcessor.__init__]. *)
Lemma MedicalReportProcessor_init_cases X w :
  MedicalReportProcessor_init X w =
    match paddle_init X with
    | Some e => (Raise (exn_of_lib e), after_call w OcrEngineLoaded)
    | None =>
        match environ w !! py "GROQ_API_KEY" with
        | Some (c :: key) =>
            match groq_client_init X (c :: key) with
            | Some e =>
                (Raise (ValueError (py "Failed to initialize Groq client: "
                                      ++ exn_str e)),
                 after_call w OcrEngineLoaded)
            | None =>
                (Return {| groq_client := c :: key |},
                 after_call (after_call w OcrEngineLoaded) GroqClientCreated)
            end
        | _ =>
            (Raise (ValueError (py "GROQ_API_KEY not found in environment variables. Please set it in your .env file.")),
             after_call w OcrEngineLoaded)
        end
    end.
Proof.
  unfold MedicalReportProcessor_init, bind, get, log, modify.
  destruct (paddle_init X) as [e|]; [reflexivity|]. cbn [ret environ].
  destruct (environ w !! py "GROQ_API_KEY") as [[|c key]|]; try reflexivity.
  simpl. destruct (groq_client_init X (c :: key)); reflexivity.
Qed.

(** Every run of the lazy initialisation: a [ValueError] of the
    constructor becomes the response of status 500, another exception is
    left to the handler's boundary. *)
Lemma ensure_processor_cases X w :
  ensure_processor X w =
    match processor w with
    | Some p => (Return p, w)
    | None =>
        match paddle_init X with
        | Some (LibValueError msg) =>
            (Raise (HTTPException 500 msg), after_call w OcrEngineLoaded)
        | Some (LibException msg) =>
            (Raise (Exception msg), after_call w OcrEngineLoaded)
        | None =>
            match environ w !! py "GROQ_API_KEY" with
            | Some (c :: key) =>
                match groq_client_init X (c :: key) with
                | Some e =>
                    (Raise (HTTPException 500
                              (py "Failed to initialize Groq client: "
                                 ++ exn_str e)),
                     after_call w OcrEngineLoaded)
                | None =>
                    (Return {| groq_client := c :: key |},
                     initialised_world w (c :: key))
                end
            | _ =>
                (Raise (HTTPException 500
                          (py "GROQ_API_KEY not found in environment variables. Please set it in your .env file.")),
                 after_call w OcrEngineLoaded)
            end
        end
    end.
Proof.
  unfold ensure_processor, bind, get.
  destruct (processor w) as [p|] eqn:Hp; [reflexivity|].
  unfold try_except. rewrite MedicalReportProcessor_init_cases.
  destruct (paddle_init X) as [[msg|msg]|]; try reflexivity.
  destruct (environ w !! py "GROQ_API_KEY") as [[|c key]|]; try reflexivity.
  destruct (groq_client_init X (c :: key)); [reflexivity|].
  unfold initialised_world, after_call, set_processor, modify; simpl.
  now rewrite <- app_assoc.
Qed.

(** What the handler does with the stored upload, by the outcome of the
    lazy initialisation. *)
Lemma respond_cases X name w :
  respond X name w =
    match ensure_processor X w with
    | (Return p, w1) =>
        match process_medical_report X p name w1 with
        | (Return r, w2) => (Return (json_of_report r), w2)
        | (Raise e, w2) => (Raise e, w2)
        end
    | (Raise e, w1) => (Raise e, w1)
    end.
Proof.
  unfold respond, bind.
  destruct (ensure_processor X w) as [[p|e] w1]; [|reflexivity].
  now destruct (process_medical_report X p name w1) as [[r|e] w2].
Qed.

Lemma cleaned_processor X name w : processor (cleaned X name w) = processor w.
Proof. unfold cleaned. now destruct (os_unlink X name). Qed.

Lemma cleaned_environ X name w : environ (cleaned X name w) = environ w.
Proof. unfold cleaned. now destruct (os_unlink X name). Qed.

Lemma cleaned_calls X name w :
  calls (cleaned X name w) = calls w ++ [UnlinkCalled name].
Proof. unfold cleaned. now destruct (os_unlink X name). Qed.

(** A first request without the credential always fails with status
    500 after at most the construction of the OCR engine. *)
Lemma respond_without_credential X name w :
  processor w = None ->
  environ w !! py "GROQ_API_KEY" = None ->
  (exists e, respond X name w = (Raise e, after_call w OcrEngineLoaded) /\
             exists detail, at_boundary (Raise e) = Raise (HTTPException 500 detail)) /\
  (paddle_init X = None ->
   respond X name w =
     (Raise (HTTPException 500
               (py "GROQ_API_KEY not found in environment variables. Please set it in your .env file.")),
      after_call w OcrEngineLoaded)).
Proof.
  intros Hnone Hkey. rewrite respond_cases, ensure_processor_cases.
  rewrite Hnone, Hkey.
  destruct (paddle_init X) as [[msg|msg]|]; (split; [|try discriminate]);
    try (eexists; split; [reflexivity|]; simpl; now eexists).
  reflexivity.
Qed.

(** C7, as the specification states it, fails: the OCR engine is
    constructed before the credential is looked up, so when its
    constructor raises, the first valid request without GROQ_API_KEY fails
    with status 500 and a detail that does not name GROQ_API_KEY. *)
Lemma engine_failure_hides_missing_credential :
  type_not_allowed mock_upload = false /\
  too_large (file_contents mock_upload) = false /\
  processor empty_world = None /\
  environ empty_world !! py "GROQ_API_KEY" = None /\
  fst (analyze_report engine_down_externals mock_upload empty_world)
  = Raise (HTTPException 500
             (py "Failed to process medical report: "
                ++ py "model download failed")) /\
  is_infix (py "GROQ_API_KEY")
    (py "Failed to process medical report: " ++ py "model download failed")
  = false.
Proof. repeat split. Qed.

(** C7 (amended). Without GROQ_API_KEY in the environment, the first
    request that passes validation always fails with status 500, the OCR
    engine is never run on the image and no processor is retained; when
    the temporary file is created and the OCR engine is constructed, the
    detail is the message that starts with the name GROQ_API_KEY, and the
    calls made are the creation of the temporary file, the construction
    of the OCR engine and the unlink. *)
Theorem missing_credential_is_500 X file w
  (Htype : type_not_allowed file = false)
  (Hsize : too_large (file_contents file) = false)
  (Hfirst : processor w = None)
  (Hkey : environ w !! py "GROQ_API_KEY" = None) :
  (exists detail,
     fst (analyze_report X file w) = Raise (HTTPException 500 detail)) /\
  (forall path,
     In (OcrInvoked path) (calls (snd (analyze_report X file w))) ->
     In (OcrInvoked path) (calls w)) /\
  processor (snd (analyze_report X file w)) = None /\
  (tempfile_error X (files w) (upload_suffix X file) = None ->
   paddle_init X = None ->
   fst (analyze_report X file w) =
     Raise (HTTPException 500
              (py "GROQ_API_KEY"
                 ++ py " not found in environment variables. Please set it in your .env file.")) /\
   is_infix (py "GROQ_API_KEY")
     (py "GROQ_API_KEY"
        ++ py " not found in environment variables. Please set it in your .env file.")
   = true /\
   calls (snd (analyze_report X file w)) =
     calls w ++ [TempFileCreated (upload_name X file w); OcrEngineLoaded;
                 UnlinkCalled (upload_name X file w)]).
Proof.
  destruct (tempfile_error X (files w) (upload_suffix X file)) as [e|] eqn:Htmp.
  { rewrite (analyze_report_no_temp_file _ _ _ _ Htype Hsize Htmp).
    cbn [fst snd]. split; [destruct e; simpl; now eexists|].
    split; [tauto|]. split; [exact Hfirst | discriminate]. }
  rewrite (analyze_report_accepted _ _ _ Htype Hsize Htmp).
  destruct (respond_without_credential X (upload_name X file w)
              (stored_world X file w) Hfirst Hkey)
    as [(e & Hrun & detail & Hdetail) Hengine].
  assert (Hcalls :
            calls (cleaned X (upload_name X file w)
                     (after_call (stored_world X file w) OcrEngineLoaded))
            = calls w ++ [TempFileCreated (upload_name X file w);
                          OcrEngineLoaded;
                          UnlinkCalled (upload_name X file w)]).
  { rewrite cleaned_calls. simpl. now rewrite <- !app_assoc. }
  split; [|split; [|split]].
  - rewrite Hrun. cbn [fst]. now exists detail.
  - rewrite Hrun. cbn [snd]. intros path. rewrite Hcalls, in_app_iff.
    intros [H|H]; [exact H|].
    simpl in H. destruct H as [H|[H|[H|[]]]]; discriminate H.
  - rewrite Hrun. cbn [snd]. rewrite cleaned_processor. exact Hfirst.
  - intros _ Hpaddle. rewrite (Hengine Hpaddle). cbn [fst snd at_boundary].
    split; [reflexivity|]. split; [reflexivity | exact Hcalls].
Qed.

Lemma missing_credential_is_500_witness :
  type_not_allowed mock_upload = false /\
  too_large (file_contents mock_upload) = false /\
  processor empty_world = None /\
  environ empty_world !! py "GROQ_API_KEY" = None /\
  tempfile_error two_lines_externals (files empty_world)
    (upload_suffix two_lines_externals mock_upload) = None /\
  paddle_init two_lines_externals = None /\
  fst (analyze_report two_lines_externals mock_upload empty_world) =
    Raise (HTTPException 500
             (py "GROQ_API_KEY"
                ++ py " not found in environment variables. Please set it in your .env file.")).
Proof.
  repeat (split; [reflexivity|]).
  destruct (missing_credential_is_500 two_lines_externals mock_upload
              empty_world eq_refl eq_refl eq_refl eq_refl)
    as (_ & _ & _ & Hnamed).
  exact (proj1 (Hnamed eq_refl eq_refl)).
Defined.

Lemma respond_with_unlink X u name :
  respond (with_unlink X u) name = respond X name.
Proof. reflexivity. Qed.

Lemma at_boundary_cases o :
  (exists response, at_boundary o = Return response) \/
  (exists status_code detail,
     at_boundary o = Raise (HTTPException status_code detail)).
Proof.
  destruct o as [response|[status_code detail|msg|msg]]; simpl; eauto.
Qed.

(** C3, as the specification states it, fails: when [os.unlink] raises,
    the handler swallows the exception and answers as usual, and the
    temporary file it created is still there after the request. *)
Lemma temp_file_survives_failed_unlink :
  In (TempFileCreated (py "/tmp/tmpq3x.png"))
    (calls (snd (analyze_report failing_unlink_externals mock_upload ready_world))) /\
  fst (analyze_report failing_unlink_externals mock_upload ready_world)
  = Return {| success := true; json_raw_text := [];
              json_explanation := NO_TEXT_EXPLANATION;
              json_highlights := [] |} /\
  files (snd (analyze_report failing_unlink_externals mock_upload ready_world))
    !! py "/tmp/tmpq3x.png" = Some (file_contents mock_upload).
Proof.
  split; [|split]; [vm_compute; tauto | reflexivity | reflexivity].
Qed.

(** C3 (amended). For a request that passes validation and creates its
    temporary file: whatever the outcome of the pipeline, [os.unlink] is
    called on the file before the request completes; if that call does
    not fail, the file does not exist afterwards, and if it fails the file
    is left in place; the failure never propagates: the response is a
    JSON body or an HTTP error, and it is the same whatever [os.unlink]
    does. A request rejected for its size, or whose temporary file cannot
    be created, creates no file and leaves the world as it was. *)
Theorem temp_file_cleanup X file w
  (Htype : type_not_allowed file = false) :
  (too_large (file_contents file) = true ->
   snd (analyze_report X file w) = w) /\
  (too_large (file_contents file) = false ->
   (tempfile_error X (files w) (upload_suffix X file) = None ->
    (exists evs,
       calls (snd (analyze_report X file w)) =
         calls w ++ [TempFileCreated (upload_name X file w)] ++ evs
                 ++ [UnlinkCalled (upload_name X file w)]) /\
    (os_unlink X (upload_name X file w) = None ->
     files (snd (analyze_report X file w)) !! upload_name X file w = None) /\
    (forall e, os_unlink X (upload_name X file w) = Some e ->
     files (snd (analyze_report X file w)) !! upload_name X file w
     = Some (file_contents file))) /\
   (forall e, tempfile_error X (files w) (upload_suffix X file) = Some e ->
    snd (analyze_report X file w) = w) /\
   (forall u,
      fst (analyze_report (with_unlink X u) file w)
      = fst (analyze_report X file w)) /\
   ((exists response, fst (analyze_report X file w) = Return response) \/
    (exists status_code detail,
       fst (analyze_report X file w)
       = Raise (HTTPException status_code detail)))).
Proof.
  split.
  - intros Hsize. now rewrite (analyze_report_too_large _ _ _ Htype Hsize).
  - intros Hsize.
    pose proof (respond_files X (upload_name X file w) (stored_world X file w))
      as Hfiles.
    pose proof (respond_calls X (upload_name X file w) (stored_world X file w))
      as (evs & Hcalls & _).
    split; [|split; [|split]].
    + intros Htmp. rewrite (analyze_report_accepted _ _ _ Htype Hsize Htmp).
      cbn [snd]. split; [|split].
      * exists evs. rewrite cleaned_calls, Hcalls. simpl.
        now rewrite <- !app_assoc.
      * intros Hunlink. unfold cleaned. rewrite Hunlink. simpl.
        apply lookup_delete_eq.
      * intros e Hunlink. unfold cleaned. rewrite Hunlink. simpl.
        rewrite Hfiles. simpl. apply lookup_insert_eq.
    + intros e Htmp.
      now rewrite (analyze_report_no_temp_file _ _ _ _ Htype Hsize Htmp).
    + intros u.
      destruct (tempfile_error X (files w) (upload_suffix X file))
        as [e|] eqn:Htmp.
      * rewrite (analyze_report_no_temp_file (with_unlink X u) _ _ e Htype
                   Hsize Htmp).
        now rewrite (analyze_report_no_temp_file X _ _ e Htype Hsize Htmp).
      * rewrite (analyze_report_accepted (with_unlink X u) _ _ Htype Hsize
                   Htmp).
        rewrite (analyze_report_accepted X _ _ Htype Hsize Htmp).
        reflexivity.
    + destruct (tempfile_error X (files w) (upload_suffix X file))
        as [e|] eqn:Htmp.
      * rewrite (analyze_report_no_temp_file _ _ _ _ Htype Hsize Htmp).
        cbn [fst]. apply at_boundary_cases.
      * rewrite (analyze_report_accepted _ _ _ Htype Hsize Htmp). cbn [fst].
        apply at_boundary_cases.
Qed.

Lemma temp_file_cleanup_witness :
  type_not_allowed mock_upload = false /\
  too_large (file_contents mock_upload) = false /\
  tempfile_error two_lines_externals (files ready_world)
    (upload_suffix two_lines_externals mock_upload) = None /\
  os_unlink two_lines_externals (upload_name two_lines_externals mock_upload ready_world)
    = None /\
  files (snd (analyze_report two_lines_externals mock_upload ready_world))
    !! upload_name two_lines_externals mock_upload ready_world = None.
Proof.
  repeat (split; [reflexivity|]).
  destruct (proj1 (proj2 (temp_file_cleanup two_lines_externals mock_upload
                            ready_world eq_refl) eq_refl) eq_refl)
    as (_ & Hgone & _).
  exact (Hgone eq_refl).
Defined.


(** * Further properties of the code *)

(** ** Stripping, lines and pieces *)

Lemma head_rev_last (l : str) : head (rev l) = last l.
Proof. rewrite <- (rev_involutive l) at 2. symmetry. apply last_rev_head. Qed.

(** A string whose ends are outside the stripped class is left as it is. *)
Lemma strip_with_fixed p (s : str) :
  (forall c, head s = Some c -> p c = false) ->
  (forall c, last s = Some c -> p c = false) ->
  strip_with p s = s.
Proof.
  intros Hhead Hlast. unfold strip_with.
  assert (Hl : lstrip_with p s = s).
  { destruct s as [|c s]; [reflexivity|]. simpl.
    now rewrite (Hhead c eq_refl). }
  rewrite Hl. unfold rstrip_with.
  assert (Hr : lstrip_with p (rev s) = rev s).
  { destruct (rev s) as [|c r] eqn:E; [reflexivity|]. simpl.
    rewrite (Hlast c); [reflexivity|].
    rewrite <- head_rev_last, E. reflexivity. }
  rewrite Hr. apply rev_involutive.
Qed.

Lemma strip_with_idempotent p s :
  strip_with p (strip_with p s) = strip_with p s.
Proof.
  apply strip_with_fixed; [apply strip_with_head | apply strip_with_last].
Qed.

Lemma strip_with_In p s c : In c (strip_with p s) -> In c s.
Proof.
  unfold strip_with, rstrip_with. intros H.
  apply in_rev, lstrip_with_In, in_rev in H.
  now apply lstrip_with_In in H.
Qed.

(** No piece of [s.split(sep)] holds the separator. *)
Lemma split_pieces_without_sep sep s piece :
  In piece (split sep s) -> ~ In sep piece.
Proof.
  revert piece. induction s as [|c s IH]; simpl; intros piece.
  - intros [<-|[]] [].
  - destruct (N.eqb_spec c sep) as [->|Hne].
    + intros [<-|Hin]; [intros [] | now apply IH].
    + destruct (split sep s) as [|p ps] eqn:E.
      * intros [<-|[]] [H|[]]. now apply Hne.
      * intros [<-|Hin].
        -- intros [H|H]; [now apply Hne|].
           now apply (IH p (or_introl eq_refl)).
        -- apply IH. now right.
Qed.

(** No line of [s.splitlines()] holds a line boundary. *)
Lemma splitlines_lines_without_boundary_aux n :
  forall s, (length s <= n)%nat ->
  forall line c, In line (splitlines s) -> In c line -> is_linebreak c = false.
Proof.
  induction n as [|n IH]; intros s Hlen line c.
  - destruct s; [intros [] | simpl in Hlen; lia].
  - destruct s as [|a s]; [intros []|]. simpl in Hlen. simpl.
    destruct (is_linebreak a) eqn:Ha.
    + intros [<-|Hin]; [intros []|].
      destruct (N.eqb a CR).
      * destruct s as [|b s']; [now destruct Hin|].
        destruct (N.eqb b LF).
        -- apply (IH s'); [simpl in Hlen; lia | exact Hin].
        -- apply (IH (b :: s')); [lia | exact Hin].
      * apply (IH s); [lia | exact Hin].
    + pose proof (IH s ltac:(lia)) as IHs.
      destruct (splitlines s) as [|l ls].
      * intros [<-|[]] [<-|[]]. exact Ha.
      * intros [<-|Hin].
        -- intros [<-|Hc]; [exact Ha|].
           now apply (IHs l c (or_introl eq_refl)).
        -- apply IHs. now right.
Qed.

Lemma splitlines_lines_without_boundary s line c :
  In line (splitlines s) -> In c line -> is_linebreak c = false.
Proof. now apply (splitlines_lines_without_boundary_aux (length s)). Qed.

(** A line followed by a line feed is the first line. *)
Lemma splitlines_line_LF line s :
  forallb (fun c => negb (is_linebreak c)) line = true ->
  splitlines (line ++ LF :: s) = line :: splitlines s.
Proof.
  induction line as [|c line IH]; simpl; [reflexivity|].
  intros H. apply andb_prop in H as [Hc Hline].
  apply negb_true_iff in Hc. rewrite Hc, (IH Hline). reflexivity.
Qed.

Lemma splitlines_one_line line :
  nonempty line = true ->
  forallb (fun c => negb (is_linebreak c)) line = true ->
  splitlines line = [line].
Proof.
  induction line as [|c line IH]; [discriminate|]. intros _ H. simpl in *.
  apply andb_prop in H as [Hc Hline].
  apply negb_true_iff in Hc. rewrite Hc.
  destruct line as [|d line]; [reflexivity|].
  now rewrite (IH eq_refl Hline).
Qed.

(** Joining lines with a line feed and splitting again gives the lines
    back. *)
Lemma splitlines_join lines :
  Forall (fun line => nonempty line = true /\
            forallb (fun c => negb (is_linebreak c)) line = true) lines ->
  splitlines (join [LF] lines) = lines.
Proof.
  induction 1 as [|line lines [Hne Hline] Hlines IH]; [reflexivity|].
  destruct lines as [|l2 lines].
  - simpl. now apply splitlines_one_line.
  - change (join [LF] (line :: l2 :: lines))
      with (line ++ LF :: join [LF] (l2 :: lines)).
    rewrite (splitlines_line_LF _ _ Hline). now rewrite IH.
Qed.

(** ** The parsed highlights *)

Lemma In_firstn {A} n (l : list A) x : In x (firstn n l) -> In x l.
Proof.
  revert l. induction n as [|n IH]; intros [|a l]; simpl; try tauto.
  intros [->|H]; [now left | right; now apply IH].
Qed.

Lemma parse_highlights_of_items t :
  split_highlights t <> [] ->
  parse_highlights t = firstn 5 (split_highlights t).
Proof.
  intros H. unfold parse_highlights, highlights_or_raw.
  now destruct (split_highlights t).
Qed.

(** X1. The parsed highlights are empty exactly when the response is
    empty: a non-empty response always yields at least one highlight. *)
Theorem parse_highlights_empty_iff t : parse_highlights t = [] <-> t = [].
Proof.
  split; [|now intros ->].
  destruct t as [|c t]; [reflexivity|]. intros H. exfalso. revert H.
  unfold parse_highlights, highlights_or_raw.
  destruct (split_highlights (c :: t)); discriminate.
Qed.

(** X2. When splitting keeps at least one item, no highlight of a
    response with a newline holds a line boundary, and no highlight of a
    response without newline holds a comma. *)
Theorem highlights_hold_no_separator t (Hitems : split_highlights t <> []) :
  (contains LF t = true ->
   forall h c, In h (parse_highlights t) -> In c h -> is_linebreak c = false) /\
  (contains LF t = false ->
   forall h, In h (parse_highlights t) -> ~ In COMMA h).
Proof.
  rewrite (parse_highlights_of_items _ Hitems).
  assert (Ht : nonempty t = true).
  { destruct t; [now destruct Hitems | reflexivity]. }
  split; intros Hnl.
  - intros h c Hh Hc. apply In_firstn in Hh.
    rewrite (split_highlights_newline _ Hnl) in Hh.
    apply in_map_iff in Hh as (line & <- & Hline).
    apply filter_In in Hline as [Hline _].
    apply strip_with_In in Hc.
    exact (splitlines_lines_without_boundary _ _ _ Hline Hc).
  - intros h Hh Hc. apply In_firstn in Hh.
    rewrite (split_highlights_comma _ Ht Hnl) in Hh.
    apply in_map_iff in Hh as (piece & <- & Hpiece).
    apply filter_In in Hpiece as [Hpiece _].
    apply strip_with_In in Hc.
    exact (split_pieces_without_sep _ _ _ Hpiece Hc).
Qed.

Lemma highlights_hold_no_separator_witness :
  split_highlights (py "a, b") <> [] /\
  contains LF (py "a, b") = false /\
  forall h, In h (parse_highlights (py "a, b")) -> ~ In COMMA h.
Proof.
  assert (H : split_highlights (py "a, b") <> []) by discriminate.
  split; [exact H|]. split; [reflexivity|].
  exact (proj2 (highlights_hold_no_separator (py "a, b") H) eq_refl).
Defined.

Lemma filter_all {A} (f : A -> bool) l :
  Forall (fun x => f x = true) l -> List.filter f l = l.
Proof.
  induction 1 as [|x l Hx _ IH]; [reflexivity|]. simpl. now rewrite Hx, IH.
Qed.

Lemma map_all_fixed {A} (f : A -> A) l :
  Forall (fun x => f x = x) l -> List.map f l = l.
Proof.
  induction 1 as [|x l Hx _ IH]; [reflexivity|]. simpl. now rewrite Hx, IH.
Qed.

Lemma contains_LF_join line1 line2 lines :
  contains LF (join [LF] (line1 :: line2 :: lines)) = true.
Proof.
  change (join [LF] (line1 :: line2 :: lines))
    with (line1 ++ LF :: join [LF] (line2 :: lines)).
  unfold contains. rewrite existsb_app. simpl. apply orb_true_r.
Qed.

Lemma clean_line_spec h :
  clean_line h = true ->
  nonempty (strip h) = true /\
  forallb (fun c => negb (is_linebreak c)) h = true /\
  strip_chars STRIP_CHARS h = h.
Proof.
  unfold clean_line. intros H.
  apply andb_prop in H as [H Hlast]. apply andb_prop in H as [H Hhead].
  apply andb_prop in H as [Hne Hline].
  split; [exact Hne|]. split; [exact Hline|].
  apply strip_with_fixed; intros c Hc; rewrite Hc in *;
    now apply negb_true_iff.
Qed.

(** X3. A response of two or more clean lines, one finding per line,
    parses to those lines, the first five of them. *)
Theorem clean_lines_round_trip lines
  (Hclean : Forall (fun h => clean_line h = true) lines)
  (Hmany : (2 <= length lines)%nat) :
  parse_highlights (join [LF] lines) = firstn 5 lines.
Proof.
  destruct lines as [|l1 [|l2 lines]]; simpl in Hmany; try lia.
  assert (Hspec := List.Forall_impl _ clean_line_spec Hclean).
  unfold parse_highlights.
  rewrite (split_highlights_newline _ (contains_LF_join l1 l2 lines)).
  rewrite splitlines_join.
  - rewrite filter_all, map_all_fixed; [reflexivity| |].
    + eapply List.Forall_impl; [|exact Hspec]. now intros h (_ & _ & H).
    + eapply List.Forall_impl; [|exact Hspec]. now intros h (H & _ & _).
  - eapply List.Forall_impl; [|exact Hspec]. intros h (Hne & Hline & _).
    split; [|exact Hline]. destruct h; [discriminate Hne | reflexivity].
Qed.

Lemma clean_lines_round_trip_witness :
  parse_highlights (join [LF] [py "Hb 13.2 g/dL"; py "WBC normal, no flags"])
  = [py "Hb 13.2 g/dL"; py "WBC normal, no flags"].
Proof.
  apply (clean_lines_round_trip [py "Hb 13.2 g/dL"; py "WBC normal, no flags"]).
  - repeat constructor.
  - simpl. lia.
Defined.

(** ** The analyzer *)

(** Every run of [_get_groq_response], by what the service does. *)
Lemma _get_groq_response_cases X self messages temperature max_tokens w :
  _get_groq_response X self messages temperature max_tokens w =
    (match service_error
             (chat_completions_create X (groq_client self) (calls w)
                (groq_request messages temperature max_tokens)) with
     | Some e => Raise (groq_failure X e)
     | None =>
         Return (strip (concat (List.map fragment_text
                   (service_chunks
                      (chat_completions_create X (groq_client self) (calls w)
                         (groq_request messages temperature max_tokens))))))
     end,
     after_call w (ChatCompletionRequested
                     (groq_request messages temperature max_tokens))).
Proof.
  unfold _get_groq_response, chat_create, try_except, bind, get, log, modify.
  simpl. fold (groq_request messages temperature max_tokens).
  destruct (chat_completions_create _ _ _ _) as [e|[cs [e|]]]; simpl;
    try reflexivity.
  now rewrite consume_chunks.
Qed.

(** X4. The text [_get_groq_response] returns is stripped: stripping it
    again changes nothing, so it neither starts nor ends with whitespace. *)
Theorem groq_response_is_stripped X self messages temperature max_tokens w t w'
  (Hrun : _get_groq_response X self messages temperature max_tokens w
          = (Return t, w')) :
  strip t = t /\
  forall c, head t = Some c \/ last t = Some c -> is_whitespace c = false.
Proof.
  rewrite _get_groq_response_cases in Hrun.
  destruct (service_error _); [discriminate|].
  injection Hrun as <- _. split.
  - apply strip_with_idempotent.
  - intros c [Hc|Hc]; [eapply strip_with_head | eapply strip_with_last];
      exact Hc.
Qed.

Lemma groq_response_is_stripped_witness :
  _get_groq_response hello_externals mock_processor [system_msg] (3 # 10) 512
    empty_world
  = (Return (py "Hello"),
     after_call empty_world
       (ChatCompletionRequested (groq_request [system_msg] (3 # 10) 512))) /\
  strip (py "Hello") = py "Hello".
Proof.
  split; [reflexivity|].
  exact (proj1 (groq_response_is_stripped hello_externals mock_processor
                  [system_msg] (3 # 10)%Q 512%Z empty_world (py "Hello") _
                  eq_refl)).
Defined.

Lemma chat_requests_after_call w req :
  chat_requests (after_call w (ChatCompletionRequested req))
  = chat_requests w ++ [req].
Proof. unfold chat_requests. simpl. now rewrite omap_app. Qed.

(** X6. [analyze_with_llm] makes one attempt: it sends the explanation
    request, and the highlights request only if the explanation arrived;
    when the service fails on a request, no further request is sent and
    the failure is raised, wrapped once by each of the two functions. *)
Theorem analyze_with_llm_single_attempt X self extracted_text w :
  let r1 := chat_completions_create X (groq_client self) (calls w)
              (explanation_request extracted_text) in
  let r2 := chat_completions_create X (groq_client self)
              (calls w ++ [ChatCompletionRequested
                             (explanation_request extracted_text)])
              (highlights_request extracted_text) in
  (forall e, service_error r1 = Some e ->
     fst (analyze_with_llm X self extracted_text w)
       = Raise (llm_failure (groq_failure X e)) /\
     chat_requests (snd (analyze_with_llm X self extracted_text w))
       = chat_requests w ++ [explanation_request extracted_text]) /\
  (service_error r1 = None ->
     chat_requests (snd (analyze_with_llm X self extracted_text w))
       = chat_requests w ++ [explanation_request extracted_text;
                             highlights_request extracted_text] /\
     forall e, service_error r2 = Some e ->
       fst (analyze_with_llm X self extracted_text w)
       = Raise (llm_failure (groq_failure X e))).
Proof.
  intros r1 r2. unfold analyze_with_llm, try_except, bind.
  rewrite _get_groq_response_cases.
  fold (explanation_request extracted_text). fold r1.
  destruct (service_error r1) as [e1|].
  - split; [|discriminate]. intros e [= <-]. simpl.
    split; [reflexivity | apply chat_requests_after_call].
  - split; [discriminate|]. intros _. cbv beta iota.
    rewrite _get_groq_response_cases.
    fold (highlights_request extracted_text).
    change (calls (after_call w (ChatCompletionRequested
                                   (explanation_request extracted_text))))
      with (calls w ++ [ChatCompletionRequested
                          (explanation_request extracted_text)]).
    fold r2. split.
    + destruct (service_error r2); simpl;
        rewrite !chat_requests_after_call; now rewrite <- app_assoc.
    + intros e ->. reflexivity.
Qed.

Lemma analyze_with_llm_single_attempt_witness :
  service_error
    (chat_completions_create two_lines_externals (groq_client mock_processor)
       (calls empty_world) (explanation_request (py "Line A")))
  = Some (Exception []) /\
  fst (analyze_with_llm two_lines_externals mock_processor (py "Line A")
         empty_world)
  = Raise (llm_failure (groq_failure two_lines_externals (Exception []))) /\
  chat_requests (snd (analyze_with_llm two_lines_externals mock_processor
                        (py "Line A") empty_world))
  = [explanation_request (py "Line A")].
Proof.
  split; [reflexivity|].
  exact (proj1 (analyze_with_llm_single_attempt two_lines_externals
                  mock_processor (py "Line A") empty_world)
           (Exception []) eq_refl).
Defined.

Lemma explanation_or_fallback_nonempty e :
  nonempty (explanation_or_fallback e) = true.
Proof. unfold explanation_or_fallback. now destruct e. Qed.

Lemma analyze_with_llm_returns X self extracted_text w a w' :
  analyze_with_llm X self extracted_text w = (Return a, w') ->
  exists e t,
    a = {| explanation := explanation_or_fallback e;
           highlights := parse_highlights t |}.
Proof.
  unfold analyze_with_llm, try_except, bind.
  destruct (_get_groq_response _ _ _ _ _ w) as [[e|e] w1]; simpl;
    [|discriminate].
  destruct (_get_groq_response _ _ _ _ _ w1) as [[t|e2] w2]; simpl;
    [|discriminate].
  intros [= <- _]. now exists e, t.
Qed.

(** What a returning run of [process_medical_report] returns. *)
Lemma process_medical_report_returns X self image_path w r w' :
  process_medical_report X self image_path w = (Return r, w') ->
  r = NO_TEXT_REPORT \/
  exists t w1 a,
    extract_text_from_image X image_path w = (Return t, w1) /\
    nonempty (strip t) = true /\
    analyze_with_llm X self t w1 = (Return a, w') /\
    r = {| raw_text := t; report_explanation := explanation a;
           report_highlights := highlights a |}.
Proof.
  unfold process_medical_report, bind.
  destruct (extract_text_from_image X image_path w) as [[t|e] w1];
    [|discriminate].
  destruct (nonempty (strip t)) eqn:Hne; simpl.
  - destruct (analyze_with_llm X self t w1) as [[a|e] w2] eqn:Ha;
      [|discriminate].
    intros [= <- <-]. right. now exists t, w1, a.
  - intros [= <- _]. now left.
Qed.

(** X5. A report never carries an empty explanation or more than five
    highlights: the explanation is the canned sentence, the fallback
    sentence or a non-empty stripped text. *)
Theorem report_is_presentable X self image_path w r w'
  (Hrun : process_medical_report X self image_path w = (Return r, w')) :
  nonempty (report_explanation r) = true /\
  (length (report_highlights r) <= 5)%nat.
Proof.
  apply process_medical_report_returns in Hrun
    as [->|(t & w1 & a & _ & _ & Ha & ->)].
  - split; [reflexivity | simpl; lia].
  - apply analyze_with_llm_returns in Ha as (e & t' & ->). simpl. split.
    + apply explanation_or_fallback_nonempty.
    + apply parse_highlights_length.
Qed.

Lemma report_is_presentable_witness :
  process_medical_report no_regions_externals mock_processor
    (py "/tmp/scan.png") scan_world
  = (Return NO_TEXT_REPORT,
     snd (process_medical_report no_regions_externals mock_processor
            (py "/tmp/scan.png") scan_world)) /\
  nonempty (report_explanation NO_TEXT_REPORT) = true.
Proof.
  split; [reflexivity|].
  exact (proj1 (report_is_presentable no_regions_externals mock_processor
                  (py "/tmp/scan.png") scan_world NO_TEXT_REPORT _ eq_refl)).
Defined.

(** ** Failed extraction *)

(** Every run of [extract_text_from_image], by what the file and the
    libraries do. *)
Lemma extract_text_from_image_cases X image_path w :
  extract_text_from_image X image_path w =
    match files w !! image_path with
    | None =>
        (Raise (ocr_failure (missing_file X image_path)),
         after_call w (ImageVerified image_path))
    | Some contents =>
        match image_verify X contents with
        | Some e =>
            (Raise (ocr_failure e), after_call w (ImageVerified image_path))
        | None =>
            (match paddle_ocr X contents with
             | inl e => Raise (ocr_failure e)
             | inr result =>
                 Return (join [LF] (List.map text (result_0 result)))
             end,
             after_call (after_call w (ImageVerified image_path))
               (OcrInvoked image_path))
        end
    end.
Proof.
  destruct (files w !! image_path) as [contents|] eqn:Hfile.
  - destruct (image_verify X contents) as [e|] eqn:Hverify.
    + unfold extract_text_from_image, Image_open_verify, try_except, bind,
        log, modify, get; simpl. now rewrite Hfile, Hverify.
    + destruct (paddle_ocr X contents) as [e|result] eqn:Hocr.
      * unfold extract_text_from_image, Image_open_verify, ocr_ocr,
          try_except, bind, log, modify, get; simpl.
        rewrite Hfile, Hverify; simpl. now rewrite Hfile, Hocr.
      * exact (extract_text_from_image_run _ _ _ _ _ Hfile Hverify Hocr).
  - unfold extract_text_from_image, Image_open_verify, try_except, bind,
      log, modify, get; simpl. now rewrite Hfile.
Qed.

(** X7. A failure of [extract_text_from_image] is always an exception
    whose message starts with "OCR extraction failed: " and continues with
    the message of the cause; and when the image does not pass
    verification the OCR engine is not run on it. *)
Theorem extraction_failure_is_wrapped X image_path w :
  (forall e w',
     extract_text_from_image X image_path w = (Raise e, w') ->
     exists cause,
       e = Exception (py "OCR extraction failed: " ++ exn_str cause)) /\
  (forall contents cause,
     files w !! image_path = Some contents ->
     image_verify X contents = Some cause ->
     extract_text_from_image X image_path w
     = (Raise (Exception (py "OCR extraction failed: " ++ exn_str cause)),
        after_call w (ImageVerified image_path))) /\
  (forall contents cause,
     files w !! image_path = Some contents ->
     image_verify X contents = None ->
     paddle_ocr X contents = inl cause ->
     fst (extract_text_from_image X image_path w)
     = Raise (Exception (py "OCR extraction failed: " ++ exn_str cause))).
Proof.
  rewrite extract_text_from_image_cases. split; [|split].
  - intros e w'.
    destruct (files w !! image_path) as [contents|].
    + destruct (image_verify X contents) as [cause|].
      * intros [= <- _]. now exists cause.
      * destruct (paddle_ocr X contents) as [cause|result];
          [|discriminate].
        intros [= <- _]. now exists cause.
    + intros [= <- _]. now eexists.
  - intros contents cause -> ->. reflexivity.
  - intros contents cause -> -> ->. reflexivity.
Qed.

(** ** The processor *)

(** Frames of other relations, along the same decomposition. *)
Ltac frame_using pre prim :=
  repeat first
    [ prim
    | eapply respects_bind; [pre | |]
    | eapply respects_try_except; [pre | |]
    | apply respects_ret; pre
    | apply respects_raise; pre
    | apply respects_get; pre
    | apply respects_of_result; pre
    | progress cbv beta zeta
    | match goal with
      | |- respects _ (match ?x with _ => _ end) => destruct x
      | |- forall _, _ => intro
      end ].

Lemma same_settings_refl w : same_settings w w.
Proof. now split. Qed.

Lemma same_settings_trans w1 w2 w3 :
  same_settings w1 w2 -> same_settings w2 w3 -> same_settings w1 w3.
Proof. unfold same_settings. intros [] []. split; congruence. Qed.

Lemma same_settings_log ev : respects same_settings (log ev).
Proof. intros w. now split. Qed.

Lemma same_environ_refl w : same_environ w w.
Proof. reflexivity. Qed.

Lemma same_environ_trans w1 w2 w3 :
  same_environ w1 w2 -> same_environ w2 w3 -> same_environ w1 w3.
Proof. unfold same_environ. congruence. Qed.

Lemma same_environ_log ev : respects same_environ (log ev).
Proof. intros w. reflexivity. Qed.

Lemma same_environ_set_processor p : respects same_environ (set_processor p).
Proof. intros w. reflexivity. Qed.

(** The pipeline changes neither the environment nor the processor. *)
Lemma process_medical_report_settings X self image_path :
  respects same_settings (process_medical_report X self image_path).
Proof.
  unfold process_medical_report.
  frame_using ltac:(first [exact same_settings_refl | exact same_settings_trans])
              ltac:(apply same_settings_log).
Qed.

Lemma process_medical_report_calls X self image_path :
  respects (more_calls is_pipeline_call)
    (process_medical_report X self image_path).
Proof. unfold process_medical_report. frame; exact I. Qed.

Lemma respond_environ X name : respects same_environ (respond X name).
Proof.
  unfold respond.
  frame_using ltac:(first [exact same_environ_refl | exact same_environ_trans])
              ltac:(first [apply same_environ_log
                          | apply same_environ_set_processor]).
Qed.

(** A failure of the pipeline is a plain exception, never an HTTP one. *)
Lemma process_medical_report_raises X self image_path w e w' :
  process_medical_report X self image_path w = (Raise e, w') ->
  exists msg, e = Exception msg.
Proof.
  unfold process_medical_report, bind.
  rewrite extract_text_from_image_cases.
  destruct (files w !! image_path) as [contents|].
  - destruct (image_verify X contents).
    + intros [= <- _]. now eexists.
    + destruct (paddle_ocr X contents) as [cause|result].
      * intros [= <- _]. now eexists.
      * destruct (negb _); [discriminate|].
        unfold analyze_with_llm, try_except, bind.
        destruct (_get_groq_response _ _ _ _ _ _) as [[t1|e1] w1].
        -- destruct (_get_groq_response _ _ _ _ _ w1) as [[t2|e2] w2];
             simpl; [discriminate|].
           intros [= <- _]. now eexists.
        -- simpl. intros [= <- _]. now eexists.
  - intros [= <- _]. now eexists.
Qed.

Lemma too_large_false contents :
  too_large contents = false <->
  (Z.of_nat (length contents) <= 10 * 1024 * 1024)%Z.
Proof. unfold too_large. rewrite Z.ltb_ge. reflexivity. Qed.

(** A request that passes validation and creates its temporary file
    while the processor cannot be constructed. *)
Lemma analyze_report_init_failure X file w detail :
  type_not_allowed file = false ->
  too_large (file_contents file) = false ->
  tempfile_error X (files w) (upload_suffix X file) = None ->
  ensure_processor X (stored_world X file w)
  = (Raise (HTTPException 500 detail),
     after_call (stored_world X file w) OcrEngineLoaded) ->
  fst (analyze_report X file w) = Raise (HTTPException 500 detail) /\
  calls (snd (analyze_report X file w))
  = calls w ++ [TempFileCreated (upload_name X file w); OcrEngineLoaded;
                UnlinkCalled (upload_name X file w)] /\
  processor (snd (analyze_report X file w)) = processor w.
Proof.
  intros Htype Hsize Htmp Hinit.
  rewrite (analyze_report_accepted _ _ _ Htype Hsize Htmp).
  rewrite respond_cases, Hinit. cbn [fst snd at_boundary].
  split; [reflexivity|]. split.
  - rewrite cleaned_calls. simpl. now rewrite <- !app_assoc.
  - now rewrite cleaned_processor.
Qed.

(** X10. A credential set to the empty string counts as missing: on the
    first request that passes validation, once its temporary file is
    created and the OCR engine constructed, the response is status 500
    with the "GROQ_API_KEY not found" detail; the engine is not run on
    the image and no processor is retained. *)
Theorem blank_credential_is_missing X file w
  (Htype : type_not_allowed file = false)
  (Hsize : too_large (file_contents file) = false)
  (Hcreated : tempfile_error X (files w) (upload_suffix X file) = None)
  (Hengine : paddle_init X = None)
  (Hfirst : processor w = None)
  (Hkey : environ w !! py "GROQ_API_KEY" = Some []) :
  fst (analyze_report X file w) =
    Raise (HTTPException 500
             (py "GROQ_API_KEY not found in environment variables. Please set it in your .env file.")) /\
  calls (snd (analyze_report X file w))
  = calls w ++ [TempFileCreated (upload_name X file w); OcrEngineLoaded;
                UnlinkCalled (upload_name X file w)] /\
  processor (snd (analyze_report X file w)) = None.
Proof.
  rewrite <- Hfirst.
  apply analyze_report_init_failure; [exact Htype | exact Hsize | exact Hcreated|].
  rewrite ensure_processor_cases. cbn [processor environ stored_world].
  now rewrite Hfirst, Hengine, Hkey.
Qed.

Lemma blank_credential_is_missing_witness :
  type_not_allowed mock_upload = false /\
  too_large (file_contents mock_upload) = false /\
  tempfile_error hello_externals (files blank_key_world)
    (upload_suffix hello_externals mock_upload) = None /\
  paddle_init hello_externals = None /\
  processor blank_key_world = None /\
  environ blank_key_world !! py "GROQ_API_KEY" = Some [] /\
  processor (snd (analyze_report hello_externals mock_upload blank_key_world))
  = None.
Proof.
  repeat (split; [reflexivity|]).
  exact (proj2 (proj2 (blank_credential_is_missing hello_externals mock_upload
                         blank_key_world eq_refl eq_refl eq_refl eq_refl
                         eq_refl eq_refl))).
Defined.

(** X11. When the Groq client cannot be constructed from a non-empty
    credential, on the first request that passes validation, once its
    temporary file is created and the OCR engine constructed, the
    response is status 500 with the detail "Failed to initialize Groq
    client: " followed by the cause; no processor is retained, so the next
    request constructs the OCR engine and the client again. *)
Theorem client_failure_is_not_cached X file w key cause
  (Htype : type_not_allowed file = false)
  (Hsize : too_large (file_contents file) = false)
  (Hcreated : tempfile_error X (files w) (upload_suffix X file) = None)
  (Hengine : paddle_init X = None)
  (Hfirst : processor w = None)
  (Hkey : environ w !! py "GROQ_API_KEY" = Some key)
  (Hnonempty : nonempty key = true)
  (Hclient : groq_client_init X key = Some cause) :
  fst (analyze_report X file w) =
    Raise (HTTPException 500
             (py "Failed to initialize Groq client: " ++ exn_str cause)) /\
  calls (snd (analyze_report X file w))
  = calls w ++ [TempFileCreated (upload_name X file w); OcrEngineLoaded;
                UnlinkCalled (upload_name X file w)] /\
  processor (snd (analyze_report X file w)) = None.
Proof.
  rewrite <- Hfirst.
  apply analyze_report_init_failure; [exact Htype | exact Hsize | exact Hcreated|].
  rewrite ensure_processor_cases. cbn [processor environ stored_world].
  rewrite Hfirst, Hengine, Hkey. destruct key as [|c key]; [discriminate|].
  now rewrite Hclient.
Qed.

Lemma client_failure_is_not_cached_witness :
  tempfile_error bad_client_externals (files ready_world)
    (upload_suffix bad_client_externals mock_upload) = None /\
  paddle_init bad_client_externals = None /\
  groq_client_init bad_client_externals (py "gsk_test")
  = Some (Exception (py "proxy misconfigured")) /\
  fst (analyze_report bad_client_externals mock_upload ready_world) =
    Raise (HTTPException 500
             (py "Failed to initialize Groq client: "
                ++ py "proxy misconfigured")) /\
  processor (snd (analyze_report bad_client_externals mock_upload ready_world))
  = None.
Proof.
  do 3 (split; [reflexivity|]).
  destruct (client_failure_is_not_cached bad_client_externals mock_upload
              ready_world (py "gsk_test") (Exception (py "proxy misconfigured"))
              eq_refl eq_refl eq_refl eq_refl eq_refl eq_refl eq_refl eq_refl)
    as (Hout & _ & Hproc).
  split; [exact Hout | exact Hproc].
Defined.

(** X12. Once a processor exists it is reused: a request that passes
    validation constructs neither the OCR engine nor the Groq client
    again, the calls it makes between creating and unlinking its temporary
    file are image verification, OCR and chat-completion requests only (it
    makes no call at all when the file cannot be created), and the
    processor is the same afterwards. *)
Theorem processor_is_reused X file w p
  (Htype : type_not_allowed file = false)
  (Hsize : too_large (file_contents file) = false)
  (Hprocessor : processor w = Some p) :
  processor (snd (analyze_report X file w)) = Some p /\
  (tempfile_error X (files w) (upload_suffix X file) = None ->
   exists evs,
     calls (snd (analyze_report X file w))
     = calls w ++ [TempFileCreated (upload_name X file w)] ++ evs
               ++ [UnlinkCalled (upload_name X file w)] /\
     Forall is_pipeline_call evs) /\
  (forall e,
     tempfile_error X (files w) (upload_suffix X file) = Some e ->
     calls (snd (analyze_report X file w)) = calls w).
Proof.
  destruct (tempfile_error X (files w) (upload_suffix X file)) as [e|] eqn:Htmp.
  { rewrite (analyze_report_no_temp_file _ _ _ _ Htype Hsize Htmp).
    cbn [snd]. split; [exact Hprocessor|]. split; [discriminate | reflexivity]. }
  rewrite (analyze_report_accepted _ _ _ Htype Hsize Htmp). cbn [snd].
  rewrite cleaned_processor, cleaned_calls, respond_cases.
  rewrite ensure_processor_cases. cbn [processor stored_world].
  rewrite Hprocessor.
  pose proof (process_medical_report_settings X p (upload_name X file w)
                (stored_world X file w)) as [_ Hsame].
  pose proof (process_medical_report_calls X p (upload_name X file w)
                (stored_world X file w)) as (evs & Hcalls & Hevs).
  fold (stored_world X file w).
  destruct (process_medical_report X p _ (stored_world X file w))
    as [[r|e] w2]; simpl in *.
  all: split; [now rewrite Hsame|].
  all: split; [|discriminate].
  all: intros _; exists evs; split; [|exact Hevs].
  all: rewrite Hcalls; now rewrite <- !app_assoc.
Qed.

Lemma processor_is_reused_witness :
  type_not_allowed mock_upload = false /\
  too_large (file_contents mock_upload) = false /\
  processor serving_world = Some mock_processor /\
  processor (snd (analyze_report hello_externals mock_upload serving_world))
  = Some mock_processor.
Proof.
  repeat (split; [reflexivity|]).
  exact (proj1 (processor_is_reused hello_externals mock_upload serving_world
                  mock_processor eq_refl eq_refl eq_refl)).
Defined.

(** ** Outcomes and frame of the handler *)

Lemma respond_raises X name w e w' :
  respond X name w = (Raise e, w') ->
  (exists detail, e = HTTPException 500 detail) \/ (exists msg, e = Exception msg).
Proof.
  rewrite respond_cases, ensure_processor_cases.
  assert (Hrun : forall p w1,
             match process_medical_report X p name w1 with
             | (Return r, w2) => (Return (json_of_report r), w2)
             | (Raise e', w2) => (Raise e', w2)
             end = (Raise e, w') ->
             exists msg, e = Exception msg).
  { intros p w1.
    destruct (process_medical_report X p name w1) as [[r|e'] w2] eqn:Hrun;
      [discriminate|].
    intros [= <- _]. exact (process_medical_report_raises _ _ _ _ _ _ Hrun). }
  destruct (processor w) as [p|]; [right; now apply (Hrun p w)|].
  destruct (paddle_init X) as [[msg|msg]|].
  - intros [= <- _]. left. now eexists.
  - intros [= <- _]. right. now eexists.
  - destruct (environ w !! py "GROQ_API_KEY") as [[|c key]|].
    + intros [= <- _]. left. now eexists.
    + destruct (groq_client_init X (c :: key)).
      * intros [= <- _]. left. now eexists.
      * intros H. right. exact (Hrun _ _ H).
    + intros [= <- _]. left. now eexists.
Qed.

Lemma respond_returns X name w j w' :
  respond X name w = (Return j, w') -> exists r, j = json_of_report r.
Proof.
  rewrite respond_cases.
  destruct (ensure_processor X w) as [[p|e] w1]; [|discriminate].
  destruct (process_medical_report X p name w1) as [[r|e] w2]; [|discriminate].
  intros [= <- _]. now exists r.
Qed.

(** X13. An upload of an allowed type whose body is at most
    10 * 1024 * 1024 bytes long, that length included, is not rejected: it
    is answered by a success body built from a report, or by status 500;
    no failure of initialisation, OCR or the chat service surfaces with
    another status. *)
Theorem accepted_upload_outcomes X file w
  (Htype : type_not_allowed file = false)
  (Hsize : (Z.of_nat (length (file_contents file)) <= 10 * 1024 * 1024)%Z) :
  (exists r, fst (analyze_report X file w) = Return (json_of_report r)) \/
  (exists detail,
     fst (analyze_report X file w) = Raise (HTTPException 500 detail)).
Proof.
  apply too_large_false in Hsize.
  destruct (tempfile_error X (files w) (upload_suffix X file)) as [e|] eqn:Htmp.
  { rewrite (analyze_report_no_temp_file _ _ _ _ Htype Hsize Htmp).
    right. destruct e; simpl; now eexists. }
  rewrite (analyze_report_accepted _ _ _ Htype Hsize Htmp). cbn [fst].
  destruct (respond X (upload_name X file w) (stored_world X file w))
    as [[j|e] w'] eqn:Hrun; cbn [fst].
  - left. apply respond_returns in Hrun as [r ->]. now exists r.
  - right. apply respond_raises in Hrun as [[detail ->]|[msg ->]];
      simpl; now eexists.
Qed.

Lemma accepted_upload_outcomes_witness :
  type_not_allowed boundary_upload = false /\
  (Z.of_nat (length (file_contents boundary_upload)) <= 10 * 1024 * 1024)%Z /\
  ((exists r, fst (analyze_report hello_externals boundary_upload ready_world)
              = Return (json_of_report r)) \/
   (exists detail,
      fst (analyze_report hello_externals boundary_upload ready_world)
      = Raise (HTTPException 500 detail))).
Proof.
  assert (Hlen : (Z.of_nat (length (file_contents boundary_upload))
                  <= 10 * 1024 * 1024)%Z).
  { unfold boundary_upload. cbn [file_contents]. rewrite repeat_length. lia. }
  split; [reflexivity|]. split; [exact Hlen|].
  exact (accepted_upload_outcomes hello_externals boundary_upload ready_world
           eq_refl Hlen).
Defined.

(** X14. A request never changes the environment, and never touches a
    file other than its own temporary file; when that name was free and
    [os.unlink] does not fail, the files after the request are the files
    before it. *)
Theorem analyze_report_frame X file w :
  environ (snd (analyze_report X file w)) = environ w /\
  (forall path,
     path <> upload_name X file w ->
     files (snd (analyze_report X file w)) !! path = files w !! path) /\
  (files w !! upload_name X file w = None ->
   os_unlink X (upload_name X file w) = None ->
   files (snd (analyze_report X file w)) = files w).
Proof.
  destruct (type_not_allowed file) eqn:Htype.
  { rewrite (analyze_report_wrong_type _ _ _ Htype). now repeat split. }
  destruct (too_large (file_contents file)) eqn:Hsize.
  { rewrite (analyze_report_too_large _ _ _ Htype Hsize). now repeat split. }
  destruct (tempfile_error X (files w) (upload_suffix X file)) as [e|] eqn:Htmp.
  { rewrite (analyze_report_no_temp_file _ _ _ _ Htype Hsize Htmp).
    now repeat split. }
  rewrite (analyze_report_accepted _ _ _ Htype Hsize Htmp). cbn [snd].
  pose proof (respond_files X (upload_name X file w) (stored_world X file w))
    as Hfiles.
  pose proof (respond_environ X (upload_name X file w) (stored_world X file w))
    as Henv.
  unfold same_files, same_environ in *.
  split; [|split].
  - now rewrite cleaned_environ, Henv.
  - intros path Hpath. unfold cleaned.
    destruct (os_unlink X _); simpl; rewrite Hfiles; simpl.
    + now rewrite !lookup_insert_ne by congruence.
    + rewrite lookup_delete_ne by congruence.
      now rewrite !lookup_insert_ne by congruence.
  - intros Hfree Hunlink. unfold cleaned. rewrite Hunlink. simpl.
    rewrite Hfiles. simpl.
    rewrite insert_insert_eq. now apply delete_insert_id.
Qed.

Lemma analyze_report_frame_witness :
  files ready_world !! upload_name hello_externals mock_upload ready_world
  = None /\
  os_unlink hello_externals (upload_name hello_externals mock_upload ready_world)
  = None /\
  files (snd (analyze_report hello_externals mock_upload ready_world))
  = files ready_world.
Proof.
  split; [reflexivity|]. split; [reflexivity|].
  exact (proj2 (proj2 (analyze_report_frame hello_externals mock_upload
                         ready_world)) eq_refl eq_refl).
Defined.

(** ** Whole requests *)

(** A run of [analyze_with_llm] whose two streams complete, with the
    world it leaves. *)
Lemma analyze_with_llm_completes X self extracted_text w cs1 cs2 :
  chat_completions_create X (groq_client self) (calls w)
    (explanation_request extracted_text) = streamed cs1 ->
  chat_completions_create X (groq_client self)
    (calls w ++ [ChatCompletionRequested (explanation_request extracted_text)])
    (highlights_request extracted_text) = streamed cs2 ->
  analyze_with_llm X self extracted_text w
  = (Return {| explanation := explanation_or_fallback (assembled cs1);
               highlights := parse_highlights (assembled cs2) |},
     after_call
       (after_call w (ChatCompletionRequested
                        (explanation_request extracted_text)))
       (ChatCompletionRequested (highlights_request extracted_text))).
Proof.
  intros H1 H2. unfold analyze_with_llm, try_except, bind.
  rewrite (_get_groq_response_run _ _ _ _ _ _ _ H1). cbv beta iota.
  erewrite _get_groq_response_run by exact H2.
  reflexivity.
Qed.

(** X16. A first request end to end: with the temporary file created,
    the OCR engine constructed, the credential set, the client
    constructed, the image verified, a text that is not blank extracted
    and both streams completed, the response is the success body holding
    the extracted text as it is, the assembled explanation (or the
    fallback sentence) and the parsed highlights; the processor is
    retained; and the calls are, in order, temporary file, OCR engine,
    Groq client, verification, OCR, the two chat requests, unlink. *)
Theorem first_request_end_to_end X file w key result cs1 cs2
  (Htype : type_not_allowed file = false)
  (Hsize : too_large (file_contents file) = false)
  (Hcreated : tempfile_error X (files w) (upload_suffix X file) = None)
  (Hengine : paddle_init X = None)
  (Hfirst : processor w = None)
  (Hkey : environ w !! py "GROQ_API_KEY" = Some key)
  (Hnonempty : nonempty key = true)
  (Hclient : groq_client_init X key = None)
  (Hverify : image_verify X (file_contents file) = None)
  (Hocr : paddle_ocr X (file_contents file) = inr result)
  (Htext : nonempty (strip (ocr_text result)) = true)
  (Hexplanation :
     chat_completions_create X key (calls_before_analysis X file w)
       (explanation_request (ocr_text result)) = streamed cs1)
  (Hhighlights :
     chat_completions_create X key
       (calls_before_analysis X file w
          ++ [ChatCompletionRequested (explanation_request (ocr_text result))])
       (highlights_request (ocr_text result)) = streamed cs2) :
  fst (analyze_report X file w)
  = Return {| success := true;
              json_raw_text := ocr_text result;
              json_explanation := explanation_or_fallback (assembled cs1);
              json_highlights := parse_highlights (assembled cs2) |} /\
  processor (snd (analyze_report X file w)) = Some {| groq_client := key |} /\
  calls (snd (analyze_report X file w))
  = calls_before_analysis X file w
      ++ [ChatCompletionRequested (explanation_request (ocr_text result));
          ChatCompletionRequested (highlights_request (ocr_text result));
          UnlinkCalled (upload_name X file w)].
Proof.
  rewrite (analyze_report_accepted _ _ _ Htype Hsize Hcreated).
  rewrite respond_cases, ensure_processor_cases.
  cbn [processor environ stored_world]. rewrite Hfirst, Hengine, Hkey.
  destruct key as [|c key]; [discriminate|]. rewrite Hclient.
  fold (stored_world X file w).
  set (w1 := initialised_world (stored_world X file w) (c :: key)).
  assert (Hfile : files w1 !! upload_name X file w = Some (file_contents file)).
  { simpl. apply lookup_insert_eq. }
  unfold process_medical_report, bind.
  rewrite (extract_text_from_image_run _ _ _ _ _ Hfile Hverify Hocr).
  fold (ocr_text result). rewrite Htext. cbn [negb].
  erewrite analyze_with_llm_completes.
  - cbn [fst snd at_boundary]. split; [reflexivity|].
    rewrite cleaned_processor, cleaned_calls. split; [reflexivity|].
    unfold calls_before_analysis. simpl. now rewrite <- !app_assoc.
  - cbn [groq_client calls w1 initialised_world stored_world].
    rewrite <- Hexplanation. f_equal.
    unfold calls_before_analysis. now rewrite <- !app_assoc.
  - cbn [groq_client calls w1 initialised_world stored_world].
    rewrite <- Hhighlights. f_equal.
    unfold calls_before_analysis. now rewrite <- !app_assoc.
Qed.

Lemma first_request_end_to_end_witness :
  tempfile_error hello_externals (files ready_world)
    (upload_suffix hello_externals mock_upload) = None /\
  paddle_init hello_externals = None /\
  processor ready_world = None /\
  environ ready_world !! py "GROQ_API_KEY" = Some (py "gsk_test") /\
  fst (analyze_report hello_externals mock_upload ready_world)
  = Return {| success := true;
              json_raw_text := py "Line A";
              json_explanation := py "Hello";
              json_highlights := [py "Hello"] |}.
Proof.
  do 4 (split; [reflexivity|]).
  exact (proj1 (first_request_end_to_end hello_externals mock_upload ready_world
                  (py "gsk_test") (Some [Some [mock_region (py "Line A")]])
                  [delta_chunk (PStr (py "Hel")); delta_chunk (PStr (py "lo"))]
                  [delta_chunk (PStr (py "Hel")); delta_chunk (PStr (py "lo"))]
                  eq_refl eq_refl eq_refl eq_refl eq_refl eq_refl eq_refl
                  eq_refl eq_refl eq_refl eq_refl eq_refl eq_refl)).
Defined.

(** The lazy initialisation returns a processor when one exists, in the
    same world, or when it constructs one, in the world that holds it. *)
Lemma ensure_processor_ready X w p w1 :
  ensure_processor X w = (Return p, w1) ->
  files w1 = files w /\
  calls w1 = calls w ++ init_calls w /\
  processor w1 = Some p.
Proof.
  rewrite ensure_processor_cases. unfold init_calls.
  destruct (processor w) as [q|] eqn:Hq.
  - intros [= <- <-]. now rewrite app_nil_r.
  - destruct (paddle_init X) as [[msg|msg]|]; try discriminate.
    destruct (environ w !! py "GROQ_API_KEY") as [[|c key]|]; try discriminate.
    destruct (groq_client_init X (c :: key)); [discriminate|].
    now intros [= <- <-].
Qed.

(** A request that passes validation, creates its temporary file and
    finds or constructs the processor. *)
Lemma analyze_report_ready X file w p w1 :
  type_not_allowed file = false ->
  too_large (file_contents file) = false ->
  tempfile_error X (files w) (upload_suffix X file) = None ->
  ensure_processor X (stored_world X file w) = (Return p, w1) ->
  analyze_report X file w =
    (at_boundary
       (match fst (process_medical_report X p (upload_name X file w) w1) with
        | Return r => Return (json_of_report r)
        | Raise e => Raise e
        end),
     cleaned X (upload_name X file w)
       (snd (process_medical_report X p (upload_name X file w) w1))).
Proof.
  intros Htype Hsize Htmp Hready.
  rewrite (analyze_report_accepted _ _ _ Htype Hsize Htmp).
  rewrite respond_cases, Hready.
  now destruct (process_medical_report X p _ w1) as [[r|e] w2].
Qed.

(** X17. When the processor is available (present already, or constructed
    by this request) and the uploaded image does not pass verification,
    the request fails with status 500 and the detail "Failed to process
    medical report: OCR extraction failed: " followed by the cause; after
    the creation of the temporary file and the construction of the
    processor, if this request constructs it, the only calls are the
    verification and the unlink: neither the OCR engine is run nor the
    chat service used. *)
Theorem unreadable_image_is_500 X file w p cause
  (Htype : type_not_allowed file = false)
  (Hsize : too_large (file_contents file) = false)
  (Hcreated : tempfile_error X (files w) (upload_suffix X file) = None)
  (Hready : fst (ensure_processor X (stored_world X file w)) = Return p)
  (Hverify : image_verify X (file_contents file) = Some cause) :
  fst (analyze_report X file w)
  = Raise (HTTPException 500
             (py "Failed to process medical report: "
                ++ py "OCR extraction failed: " ++ exn_str cause)) /\
  calls (snd (analyze_report X file w))
  = calls w ++ [TempFileCreated (upload_name X file w)] ++ init_calls w
      ++ [ImageVerified (upload_name X file w);
          UnlinkCalled (upload_name X file w)].
Proof.
  destruct (ensure_processor X (stored_world X file w)) as [o w1] eqn:Hrun.
  cbn [fst] in Hready. subst o.
  destruct (ensure_processor_ready _ _ _ _ Hrun) as (Hfiles & Hcalls & _).
  rewrite (analyze_report_ready _ _ _ _ _ Htype Hsize Hcreated Hrun).
  unfold process_medical_report, bind.
  rewrite extract_text_from_image_cases, Hfiles. cbn [files stored_world].
  rewrite lookup_insert_eq, Hverify. cbn [fst snd at_boundary ocr_failure].
  split; [reflexivity|].
  rewrite cleaned_calls. cbn [calls after_call]. rewrite Hcalls.
  cbn [calls stored_world]. unfold init_calls. cbn [processor].
  now rewrite <- !app_assoc.
Qed.

Lemma unreadable_image_is_500_witness :
  tempfile_error corrupt_image_externals (files ready_world)
    (upload_suffix corrupt_image_externals mock_upload) = None /\
  fst (ensure_processor corrupt_image_externals
         (stored_world corrupt_image_externals mock_upload ready_world))
  = Return mock_processor /\
  image_verify corrupt_image_externals (file_contents mock_upload)
  = Some (Exception (py "cannot identify image file")) /\
  calls (snd (analyze_report corrupt_image_externals mock_upload ready_world))
  = [TempFileCreated (py "/tmp/tmpq3x.png"); OcrEngineLoaded;
     GroqClientCreated; ImageVerified (py "/tmp/tmpq3x.png");
     UnlinkCalled (py "/tmp/tmpq3x.png")].
Proof.
  do 3 (split; [reflexivity|]).
  exact (proj2 (unreadable_image_is_500 corrupt_image_externals mock_upload
                  ready_world mock_processor
                  (Exception (py "cannot identify image file"))
                  eq_refl eq_refl eq_refl eq_refl eq_refl)).
Defined.

(** X18. When the processor is available (present already, or constructed
    by this request), a text that is not blank is extracted and the chat
    service fails on the explanation request, the request fails with
    status 500, and the detail sent to the client holds the chain of
    wrapped messages down to the cause followed by the text of the
    traceback; the highlights request is not sent, and the temporary file
    is unlinked. *)
Theorem chat_failure_is_500 X file w p result cause
  (Htype : type_not_allowed file = false)
  (Hsize : too_large (file_contents file) = false)
  (Hcreated : tempfile_error X (files w) (upload_suffix X file) = None)
  (Hready : fst (ensure_processor X (stored_world X file w)) = Return p)
  (Hverify : image_verify X (file_contents file) = None)
  (Hocr : paddle_ocr X (file_contents file) = inr result)
  (Htext : nonempty (strip (ocr_text result)) = true)
  (Hservice :
     service_error
       (chat_completions_create X (groq_client p)
          (calls w ++ [TempFileCreated (upload_name X file w)] ++ init_calls w
             ++ [ImageVerified (upload_name X file w);
                 OcrInvoked (upload_name X file w)])
          (explanation_request (ocr_text result))) = Some cause) :
  fst (analyze_report X file w)
  = Raise (HTTPException 500
             (py "Failed to process medical report: "
                ++ py "LLM analysis (Groq) failed: "
                ++ py "Groq API call failed: " ++ exn_str cause
                ++ [LF] ++ format_exc X cause)) /\
  calls (snd (analyze_report X file w))
  = calls w ++ [TempFileCreated (upload_name X file w)] ++ init_calls w
      ++ [ImageVerified (upload_name X file w);
          OcrInvoked (upload_name X file w);
          ChatCompletionRequested (explanation_request (ocr_text result));
          UnlinkCalled (upload_name X file w)].
Proof.
  destruct (ensure_processor X (stored_world X file w)) as [o w1] eqn:Hrun.
  cbn [fst] in Hready. subst o.
  destruct (ensure_processor_ready _ _ _ _ Hrun) as (Hfiles & Hcalls & _).
  rewrite (analyze_report_ready _ _ _ _ _ Htype Hsize Hcreated Hrun).
  assert (Hfile : files w1 !! upload_name X file w = Some (file_contents file)).
  { rewrite Hfiles. simpl. apply lookup_insert_eq. }
  assert (Hhistory :
            calls w1 ++ [ImageVerified (upload_name X file w)]
                     ++ [OcrInvoked (upload_name X file w)]
            = calls w ++ [TempFileCreated (upload_name X file w)]
                ++ init_calls w
                ++ [ImageVerified (upload_name X file w);
                    OcrInvoked (upload_name X file w)]).
  { rewrite Hcalls. cbn [calls stored_world]. unfold init_calls.
    cbn [processor]. now rewrite <- !app_assoc. }
  unfold process_medical_report, bind.
  rewrite (extract_text_from_image_run _ _ _ _ _ Hfile Hverify Hocr).
  fold (ocr_text result). rewrite Htext. cbn [negb].
  unfold analyze_with_llm, try_except, bind.
  rewrite _get_groq_response_cases.
  fold (explanation_request (ocr_text result)).
  cbn [calls]. rewrite <- app_assoc, Hhistory, Hservice.
  cbn [fst snd at_boundary raise].
  split; [reflexivity|].
  rewrite cleaned_calls. cbn [calls after_call].
  now rewrite <- !app_assoc.
Qed.

Lemma chat_failure_is_500_witness :
  tempfile_error llm_down_externals (files ready_world)
    (upload_suffix llm_down_externals mock_upload) = None /\
  fst (ensure_processor llm_down_externals
         (stored_world llm_down_externals mock_upload ready_world))
  = Return mock_processor /\
  fst (analyze_report llm_down_externals mock_upload ready_world)
  = Raise (HTTPException 500
             (py "Failed to process medical report: "
                ++ py "LLM analysis (Groq) failed: "
                ++ py "Groq API call failed: " ++ py "connection refused"
                ++ [LF])).
Proof.
  do 2 (split; [reflexivity|]).
  exact (proj1 (chat_failure_is_500 llm_down_externals mock_upload
                  ready_world mock_processor
                  (Some [Some [mock_region (py "Line A")]])
                  (Exception (py "connection refused"))
                  eq_refl eq_refl eq_refl eq_refl eq_refl eq_refl eq_refl
                  eq_refl)).
Defined.

Lemma extraction_failure_is_wrapped_witness :
  files (stored_world corrupt_image_externals mock_upload serving_world)
    !! py "/tmp/tmpq3x.png" = Some (file_contents mock_upload) /\
  fst (extract_text_from_image corrupt_image_externals (py "/tmp/tmpq3x.png")
         (stored_world corrupt_image_externals mock_upload serving_world))
  = Raise (Exception (py "OCR extraction failed: "
                        ++ py "cannot identify image file")).
Proof.
  split; [reflexivity|].
  rewrite (proj1 (proj2 (extraction_failure_is_wrapped corrupt_image_externals
                           (py "/tmp/tmpq3x.png")
                           (stored_world corrupt_image_externals mock_upload
                              serving_world)))
             (file_contents mock_upload)
             (Exception (py "cannot identify image file")) eq_refl eq_refl).
  reflexivity.
Defined.

(** ** Shapes of fragments *)

(** X9. A fragment exposing [choices[0].delta.content] contributes that
    content when it is a string, whether it is an object read through
    attributes or a mapping read through keys, whatever else it carries;
    an object whose content is not a string, or whose [choices] is an
    empty list, contributes nothing. *)
Theorem fragment_text_by_shape :
  (forall attrs cattrs dattrs rest s,
     attrs !! py "choices" = Some (PList (PObj cattrs :: rest)) ->
     cattrs !! py "delta" = Some (PObj dattrs) ->
     dattrs !! py "content" = Some (PStr s) ->
     fragment_text (PObj attrs) = s) /\
  (forall entries centries dentries rest s,
     entries !! py "choices" = Some (PList (PDict centries :: rest)) ->
     centries !! py "delta" = Some (PDict dentries) ->
     dentries !! py "content" = Some (PStr s) ->
     fragment_text (PDict entries) = s) /\
  (forall attrs cattrs dattrs rest v,
     attrs !! py "choices" = Some (PList (PObj cattrs :: rest)) ->
     cattrs !! py "delta" = Some (PObj dattrs) ->
     dattrs !! py "content" = Some v ->
     (forall s, v <> PStr s) ->
     fragment_text (PObj attrs) = []) /\
  (forall attrs,
     attrs !! py "choices" = Some (PList []) ->
     fragment_text (PObj attrs) = []).
Proof.
  split; [|split; [|split]].
  - intros attrs cattrs dattrs rest s H1 H2 H3.
    unfold fragment_text, consume_chunk, append_from_attributes,
      getattr_or_None; simpl.
    rewrite H1; simpl. rewrite H2; simpl. rewrite H3; simpl.
    now destruct s.
  - intros entries centries dentries rest s H1 H2 H3.
    unfold fragment_text, consume_chunk, append_from_mapping; simpl.
    rewrite H1; simpl. rewrite H2; simpl.
    assert (Hsize : bool_decide (size dentries = 0%nat) = false).
    { apply bool_decide_eq_false. intros Hz.
      apply map_size_empty_iff in Hz. subst dentries.
      now rewrite lookup_empty in H3. }
    rewrite Hsize; simpl. rewrite H3; simpl.
    now destruct s.
  - intros attrs cattrs dattrs rest v H1 H2 H3 Hv.
    unfold fragment_text, consume_chunk, append_from_attributes,
      getattr_or_None; simpl.
    rewrite H1; simpl. rewrite H2; simpl. rewrite H3; simpl.
    destruct (truthy v); [|reflexivity].
    destruct v; try reflexivity. now destruct (Hv s).
  - intros attrs H1.
    unfold fragment_text, consume_chunk, append_from_attributes; simpl.
    now rewrite H1.
Qed.

Lemma fragment_text_by_shape_witness :
  fragment_text
    (PDict {[ py "choices" :=
                PList [PDict {[ py "delta" :=
                                  PDict {[ py "content" := PStr (py "Hel") ]} ]}] ]})
  = py "Hel".
Proof.
  eapply (proj1 (proj2 fragment_text_by_shape)); reflexivity.
Defined.

(** ** Comma-separated responses and the fallback *)

Lemma split_piece_sep sep piece s :
  forallb (fun c => negb (N.eqb c sep)) piece = true ->
  split sep (piece ++ sep :: s) = piece :: split sep s.
Proof.
  induction piece as [|c piece IH]; simpl.
  - now rewrite N.eqb_refl.
  - intros H. apply andb_prop in H as [Hc Hpiece].
    apply negb_true_iff in Hc. now rewrite Hc, (IH Hpiece).
Qed.

Lemma split_one_piece sep piece :
  forallb (fun c => negb (N.eqb c sep)) piece = true ->
  split sep piece = [piece].
Proof.
  induction piece as [|c piece IH]; simpl; [reflexivity|].
  intros H. apply andb_prop in H as [Hc Hpiece].
  apply negb_true_iff in Hc. now rewrite Hc, (IH Hpiece).
Qed.

Lemma contains_false c h :
  forallb (fun x => negb (N.eqb x c)) h = true -> contains c h = false.
Proof.
  unfold contains. induction h as [|a h IH]; [reflexivity|]. intros H.
  change (negb (N.eqb a c) && forallb (fun x => negb (N.eqb x c)) h = true) in H.
  apply andb_prop in H as [Ha Hh]. apply negb_true_iff in Ha.
  change (N.eqb c a || existsb (N.eqb c) h = false).
  now rewrite N.eqb_sym, Ha, (IH Hh).
Qed.

Lemma clean_piece_spec h :
  clean_piece h = true ->
  nonempty h = true /\
  forallb (fun c => negb (N.eqb c COMMA)) h = true /\
  contains LF h = false /\
  strip h = h.
Proof.
  unfold clean_piece. intros H.
  apply andb_prop in H as [H Hlast]. apply andb_prop in H as [H Hhead].
  apply andb_prop in H as [Hne Hchars].
  rewrite forallb_forall in Hchars.
  split; [exact Hne|]. split; [|split].
  - apply forallb_forall. intros c Hc.
    now destruct (andb_prop _ _ (Hchars c Hc)).
  - apply contains_false, forallb_forall. intros c Hc.
    now destruct (andb_prop _ _ (Hchars c Hc)).
  - apply strip_with_fixed; intros c Hc; rewrite Hc in *;
      now apply negb_true_iff.
Qed.

Lemma split_join_comma_from prefix piece pieces :
  forallb (fun c => negb (N.eqb c COMMA)) prefix = true ->
  Forall (fun h => forallb (fun c => negb (N.eqb c COMMA)) h = true)
    (piece :: pieces) ->
  split COMMA (prefix ++ join (py ", ") (piece :: pieces))
  = (prefix ++ piece) :: List.map (cons SPACE) pieces.
Proof.
  revert prefix piece.
  induction pieces as [|p2 pieces IH]; intros prefix piece Hprefix H;
    inversion H as [|? ? Hpiece Hrest]; subst.
  - simpl. apply split_one_piece. rewrite forallb_app.
    now rewrite Hprefix, Hpiece.
  - change (join (py ", ") (piece :: p2 :: pieces))
      with (piece ++ COMMA :: [SPACE] ++ join (py ", ") (p2 :: pieces)).
    rewrite app_assoc, split_piece_sep.
    + now rewrite (IH [SPACE] p2 eq_refl Hrest).
    + rewrite forallb_app. now rewrite Hprefix, Hpiece.
Qed.

(** The pieces of a comma-and-space separated list, each after the first
    with its leading space. *)
Lemma split_join_comma piece pieces :
  Forall (fun h => forallb (fun c => negb (N.eqb c COMMA)) h = true)
    (piece :: pieces) ->
  split COMMA (join (py ", ") (piece :: pieces))
  = piece :: List.map (cons SPACE) pieces.
Proof. exact (split_join_comma_from [] piece pieces eq_refl). Qed.

Lemma contains_app c s1 s2 :
  contains c (s1 ++ s2) = contains c s1 || contains c s2.
Proof. unfold contains. apply existsb_app. Qed.

Lemma join_comma_without_LF pieces :
  Forall (fun h => contains LF h = false) pieces ->
  contains LF (join (py ", ") pieces) = false.
Proof.
  induction 1 as [|p pieces Hp Hrest IH]; [reflexivity|].
  destruct pieces as [|p2 pieces]; [exact Hp|].
  change (join (py ", ") (p :: p2 :: pieces))
    with (p ++ py ", " ++ join (py ", ") (p2 :: pieces)).
  now rewrite !contains_app, Hp, IH.
Qed.

(** X8. A response without newline that lists clean findings separated
    by a comma and a space parses to those findings, the first five of
    them. *)
Theorem comma_pieces_round_trip piece pieces
  (Hclean : Forall (fun h => clean_piece h = true) (piece :: pieces)) :
  parse_highlights (join (py ", ") (piece :: pieces))
  = firstn 5 (piece :: pieces).
Proof.
  assert (Hspec := List.Forall_impl _ clean_piece_spec Hclean).
  assert (Hnl : contains LF (join (py ", ") (piece :: pieces)) = false).
  { apply join_comma_without_LF. eapply List.Forall_impl; [|exact Hspec].
    now intros h (_ & _ & H & _). }
  assert (Hne : nonempty (join (py ", ") (piece :: pieces)) = true).
  { inversion Hspec as [|? ? (Hp & _) _]; subst.
    destruct piece; [discriminate|]. now destruct pieces. }
  unfold parse_highlights. rewrite (split_highlights_comma _ Hne Hnl).
  rewrite split_join_comma.
  2:{ eapply List.Forall_impl; [|exact Hspec]. now intros h (_ & H & _). }
  inversion Hspec as [|? ? (Hp & _ & _ & Hstrip) Hrest]; subst.
  assert (Hitems :
            List.map strip
              (List.filter (fun h => nonempty (strip h))
                 (piece :: List.map (cons SPACE) pieces))
            = piece :: pieces).
  { simpl. rewrite Hstrip, Hp. simpl. rewrite Hstrip. f_equal.
    clear -Hrest. induction Hrest as [|p ps (Hp & _ & _ & Hstrip) _ IH];
      [reflexivity|].
    simpl. change (strip (SPACE :: p)) with (strip p).
    rewrite Hstrip, Hp. simpl. change (strip (SPACE :: p)) with (strip p).
    now rewrite Hstrip, IH. }
  now rewrite Hitems.
Qed.

Lemma comma_pieces_round_trip_witness :
  parse_highlights (py "a, b, c") = [py "a"; py "b"; py "c"].
Proof.
  apply (comma_pieces_round_trip (py "a") [py "b"; py "c"]).
  repeat constructor.
Defined.

Lemma lstrip_with_nil p s : lstrip_with p s = [] -> forallb p s = true.
Proof.
  induction s as [|c s IH]; simpl; [reflexivity|].
  destruct (p c); [exact IH | discriminate].
Qed.

(** A string strips to nothing exactly when all its characters are of
    the stripped class. *)
Lemma strip_with_nil p s : strip_with p s = [] -> forallb p s = true.
Proof.
  unfold strip_with, rstrip_with. intros H.
  assert (Hrev : lstrip_with p (rev (lstrip_with p s)) = []).
  { rewrite <- (rev_involutive (lstrip_with p _)). now rewrite H. }
  apply lstrip_with_nil in Hrev.
  destruct (lstrip_with_suffix p s) as (prefix & Hs & Hprefix).
  rewrite Hs, forallb_app, Hprefix. simpl.
  apply forallb_forall. intros c Hc.
  rewrite forallb_forall in Hrev. apply Hrev. now apply in_rev in Hc.
Qed.

Lemma linebreak_is_whitespace c :
  is_linebreak c = true -> is_whitespace c = true.
Proof.
  unfold is_linebreak, is_whitespace. rewrite !char_in_true.
  unfold linebreak_chars, whitespace_chars. simpl.
  intros H. repeat (destruct H as [<-|H]; [tauto|]). destruct H.
Qed.

(** Every character that is no line boundary lies on a line. *)
Lemma splitlines_covers_aux n :
  forall s, (length s <= n)%nat ->
  forall c, In c s -> is_linebreak c = false ->
  exists line, In line (splitlines s) /\ In c line.
Proof.
  induction n as [|n IH]; intros s Hlen c Hin Hc.
  - destruct s; [destruct Hin | simpl in Hlen; lia].
  - destruct s as [|a s]; [destruct Hin|]. simpl in Hlen. simpl.
    destruct (is_linebreak a) eqn:Ha.
    + destruct Hin as [->|Hin]; [congruence|].
      destruct (N.eqb a CR).
      * destruct s as [|b s']; [destruct Hin|].
        destruct (N.eqb b LF) eqn:Hb.
        -- destruct Hin as [->|Hin].
           ++ apply N.eqb_eq in Hb. subst c. discriminate Hc.
           ++ destruct (IH s' ltac:(simpl in Hlen; lia) c Hin Hc)
                as (line & Hline & Hcl).
              exists line. split; [now right | exact Hcl].
        -- destruct (IH (b :: s') ltac:(lia) c Hin Hc) as (line & Hline & Hcl).
           exists line. split; [now right | exact Hcl].
      * destruct (IH s ltac:(lia) c Hin Hc) as (line & Hline & Hcl).
        exists line. split; [now right | exact Hcl].
    + destruct Hin as [->|Hin].
      * destruct (splitlines s) as [|l ls]; eexists; split;
          try (left; reflexivity); now left.
      * destruct (IH s ltac:(lia) c Hin Hc) as (line & Hline & Hcl).
        destruct (splitlines s) as [|l ls]; [destruct Hline|].
        destruct Hline as [->|Hline].
        -- exists (a :: line). split; [now left | now right].
        -- exists line. split; [now right | exact Hcl].
Qed.

(** Every character that is not the separator lies in a piece, and the
    characters of the pieces are characters of the string. *)
Lemma split_covers sep s c :
  In c s -> c <> sep -> exists piece, In piece (split sep s) /\ In c piece.
Proof.
  intros Hin Hne. induction s as [|a s IH]; [destruct Hin|]. simpl.
  destruct (N.eqb_spec a sep) as [->|Ha].
  - destruct Hin as [->|Hin]; [congruence|].
    destruct (IH Hin) as (piece & Hpiece & Hc).
    exists piece. split; [now right | exact Hc].
  - destruct Hin as [->|Hin].
    + destruct (split sep s) as [|p ps]; eexists; split;
        try (left; reflexivity); now left.
    + destruct (IH Hin) as (piece & Hpiece & Hc).
      destruct (split sep s) as [|p ps]; [destruct Hpiece|].
      destruct Hpiece as [->|Hpiece].
      * exists (a :: piece). split; [now left | now right].
      * exists piece. split; [now right | exact Hc].
Qed.

Lemma split_pieces_of_string sep s piece c :
  In piece (split sep s) -> In c piece -> In c s.
Proof.
  revert piece. induction s as [|a s IH]; simpl; intros piece.
  - intros [<-|[]] [].
  - destruct (N.eqb a sep).
    + intros [<-|Hpiece]; [intros [] |]. intros Hc. right. now apply (IH piece).
    + destruct (split sep s) as [|p ps].
      * intros [<-|[]] [<-|[]]. now left.
      * intros [<-|Hpiece].
        -- intros [<-|Hc]; [now left|]. right. apply (IH p); [now left | exact Hc].
        -- intros Hc. right. apply (IH piece); [now right | exact Hc].
Qed.

Lemma map_filter_nil {A B} (g : A -> B) (f : A -> bool) l :
  List.map g (List.filter f l) = [] <-> forall x, In x l -> f x = false.
Proof.
  induction l as [|a l IH]; simpl; [tauto|].
  destruct (f a) eqn:Ha; simpl; split.
  - discriminate.
  - intros H. specialize (H a (or_introl eq_refl)). congruence.
  - intros H x [<-|Hx]; [exact Ha | now apply IH].
  - intros H. apply IH. intros x Hx. apply H. now right.
Qed.

(** X15. For a response as [_get_groq_response] returns it (non-empty,
    stripped), splitting keeps no item, so that the raw response becomes
    the only highlight, exactly when the response has no newline and is
    made of commas and whitespace only; a response with a newline is
    never replaced by the raw text. *)
Theorem raw_fallback_iff t
  (Hne : nonempty t = true) (Hstripped : strip t = t) :
  split_highlights t = [] <->
  contains LF t = false /\
  forall c, In c t -> c = COMMA \/ is_whitespace c = true.
Proof.
  assert (Hchar : exists c0, In c0 t /\ is_whitespace c0 = false).
  { apply strip_with_nonempty. fold (strip t). now rewrite Hstripped. }
  destruct (contains LF t) eqn:Hnl.
  - rewrite (split_highlights_newline _ Hnl), map_filter_nil.
    split; [|now intros [? _]]. intros Hblank. exfalso.
    destruct Hchar as (c0 & Hin & Hc0).
    assert (Hlb : is_linebreak c0 = false).
    { destruct (is_linebreak c0) eqn:E; [|reflexivity].
      apply linebreak_is_whitespace in E. congruence. }
    destruct (splitlines_covers_aux (length t) t ltac:(lia) c0 Hin Hlb)
      as (line & Hline & Hcl).
    specialize (Hblank line Hline).
    destruct (strip line) eqn:Hstrip; [|discriminate].
    apply strip_with_nil in Hstrip. rewrite forallb_forall in Hstrip.
    specialize (Hstrip c0 Hcl). congruence.
  - rewrite (split_highlights_comma _ Hne Hnl), map_filter_nil. split.
    + intros Hblank. split; [reflexivity|]. intros c Hc.
      destruct (N.eqb_spec c COMMA) as [->|Hcomma]; [now left | right].
      destruct (split_covers COMMA t c Hc Hcomma) as (piece & Hpiece & Hcp).
      specialize (Hblank piece Hpiece).
      destruct (strip piece) eqn:Hstrip; [|discriminate].
      apply strip_with_nil in Hstrip. rewrite forallb_forall in Hstrip.
      exact (Hstrip c Hcp).
    + intros [_ Hchars] piece Hpiece.
      assert (Hall : forallb is_whitespace piece = true).
      { apply forallb_forall. intros c Hc.
        destruct (Hchars c (split_pieces_of_string _ _ _ _ Hpiece Hc))
          as [->|Hws]; [|exact Hws].
        now destruct (split_pieces_without_sep _ _ _ Hpiece Hc). }
      unfold strip. now rewrite (strip_with_all _ _ Hall).
Qed.

Lemma raw_fallback_iff_witness :
  nonempty (py ", ,") = true /\
  strip (py ", ,") = py ", ," /\
  split_highlights (py ", ,") = [] /\
  forall c, In c (py ", ,") -> c = COMMA \/ is_whitespace c = true.
Proof.
  split; [reflexivity|]. split; [reflexivity|]. split; [reflexivity|].
  exact (proj2 (proj1 (raw_fallback_iff (py ", ,") eq_refl eq_refl) eq_refl)).
Defined.
